(** * winsystray: the tray-icon process of [main.go]

    A shallow embedding of [main.go].  The program is a sequence of calls
    into user32/shell32/kernel32 interleaved with console output, so every
    Go function becomes a computation in a small state-and-outcome monad:

    - the state holds the package-level variables ([hInst], [hWnd], [mu],
      [commands]), the [signals] channel captured by the goroutine, the
      state of the host OS, and the trace of everything the program did;
    - the outcome says whether the computation returned, ended the process
      ([os.Exit], [log.Fatal]) or is parked on a blocking operation;
    - the host OS is a [Gateway]: an arbitrary deterministic machine that
      answers each system call.  Theorems quantify over every gateway.

    System calls are atomic in this model.  A call during which the host
    re-enters the window procedure (the modal loop of [TrackPopupMenu], the
    messages [DestroyWindow] sends) is not unfolded; what the nested
    invocation does is what [wndProc] does from the state it finds, with
    the mutex held in the first case, and the statements about one
    invocation hold for every state for that reason. *)

From Stdlib Require Import ZArith List String Ascii Bool Lia.
Import ListNotations.
Open Scope string_scope.
Open Scope Z_scope.
Open Scope list_scope.

(** ** Constants (main.go, lines 20-68 and 365-374) *)

Definition WM_USER : Z := 0x0400.
Definition WM_TRAYICON : Z := WM_USER + 1.
Definition WM_COMMAND : Z := 0x0111.
Definition WM_RBUTTONDOWN : Z := 0x0204.
Definition WM_MOUSEMOVE : Z := 0x0200.
Definition WM_LBUTTONDOWN : Z := 0x0201.
Definition NIM_ADD : Z := 0x00000000.
Definition NIM_MODIFY : Z := 0x00000001.
Definition NIM_DELETE : Z := 0x00000002.
Definition NIF_ICON : Z := 0x00000002.
Definition NIF_MESSAGE : Z := 0x00000001.
Definition NIF_TIP : Z := 0x00000004.
Definition IDI_APPLICATION : Z := 32512.
Definition IDM_EXIT : Z := 0x0001.
Definition IDM_OPEN_UI : Z := 0x0002.
Definition WM_ENDSESSION : Z := 0x0016.
Definition WM_DESTROY : Z := 0x0002.
Definition WM_CLOSE : Z := 0x0010.
Definition WM_NULL : Z := 0x0000.
Definition WM_RBUTTONUP : Z := 0x0205.
Definition WM_LBUTTONUP : Z := 0x0202.
Definition WS_OVERLAPPEDWINDOW : Z := 0x00CF0000.
Definition CS_HREDRAW : Z := 0x0001.
Definition CS_VREDRAW : Z := 0x0002.
Definition COLOR_WINDOW : Z := 5.
Definition IDC_ARROW : Z := 32512.
Definition CW_USEDEFAULT : Z := Z.lnot 0x7fffffff.
Definition NIF_STATE : Z := 0x00000008.
Definition NIF_INFO : Z := 0x00000010.
Definition NIIF_NONE : Z := 0x00000000.
Definition NIS_HIDDEN : Z := 0x00000001.
Definition NIS_SHAREDICON : Z := 0x00000002.
Definition SW_HIDE : Z := 0.

Definition MF_STRING : Z := 0x00000000.
Definition MF_SEPARATOR : Z := 0x00000800.
Definition TPM_RIGHTALIGN : Z := 0x0008.
Definition TPM_BOTTOMALIGN : Z := 0x0020.
Definition TPM_RIGHTBUTTON : Z := 0x0002.
Definition TPM_NONOTIFY : Z := 0x0080.
Definition TPM_RETURNCMD : Z := 0x0100.
Definition TPM_LEFTALIGN : Z := 0x0000.

(** Capacity of the [commands] channel (line 238) and of the [signals]
    channel (line 240). *)
Definition COMMANDS_CAP : nat := 10.
Definition SIGNALS_CAP : nat := 1.

(** ** Machine integers

    [uintptr] is 64 bits wide on the windows/amd64 target; conversions
    between integer types wrap. *)

Definition uintptr (z : Z) : Z := z mod 2 ^ 64.

Definition int32 (z : Z) : Z :=
  let m := z mod 2 ^ 32 in
  if m <? 2 ^ 31 then m else m - 2 ^ 32.

Definition uint16 (z : Z) : Z := z mod 2 ^ 16.

(** [MAKEINTRESOURCE] (lines 16-18): the identifier reinterpreted as a
    pointer. *)
Definition MAKEINTRESOURCE (id : Z) : Z := uintptr id.

(** ** Data model *)

Record POINT := mkPOINT { X : Z; Y : Z }.

(** [WNDCLASS] as [main] fills it; the callback address produced by
    [windows.NewCallback] is a run-time address and is left out. *)
Record WindowClass := mkWindowClass {
  Style : Z;
  CbClsExtra : Z;
  CbWndExtra : Z;
  Instance : Z;
  Icon : Z;
  Cursor : Z;
  Background : Z;
  MenuName : option string;
  ClassName : option string
}.

(** [NOTIFYICONDATA].  The fixed-size UTF-16 arrays are strings cut at the
    array length (the program only stores ASCII text, one code unit per
    character); [CbSize] is [unsafe.Sizeof] of the struct, a layout constant
    that no function of the program reads back, and is left out together
    with [GuidItem]. *)
Record notifyIconData := mkNid {
  HWnd : Z;
  UID : Z;
  UFlags : Z;
  UCallbackMessage : Z;
  HIcon : Z;
  SzTip : string;
  DwState : Z;
  DwStateMask : Z;
  SzInfo : string;
  UVersion : Z;
  SzInfoTitle : string;
  DwInfoFlags : Z;
  HBalloonIcon : Z
}.

(** Go's [error] values as the program builds them. *)
Inductive error :=
| Errno (code : Z)
| EINVAL
| Errorf (format : string) (cause : error).

Inductive Signal := SIGINT | SIGTERM.

(** A buffered Go channel: its capacity and its queued elements, oldest
    first.  The nil channel is [None] where a channel variable is held. *)
Record Chan (A : Type) := mkChan { cap : nat; buf : list A }.
Arguments mkChan {A} _ _.
Arguments cap {A} _.
Arguments buf {A} _.

Definition make_chan {A : Type} (n : nat) : Chan A := mkChan n [].

(** A send that does not wait: [Some] of the channel after the send when
    the buffer has room, [None] when the send would have to wait.  With a
    positive capacity a parked receiver implies an empty buffer, so room in
    the buffer is the whole condition. *)
Definition try_send {A : Type} (c : option (Chan A)) (v : A) : option (Chan A) :=
  match c with
  | None => None
  | Some ch =>
      if (List.length (buf ch) <? cap ch)%nat
      then Some (mkChan (cap ch) (buf ch ++ [v]))
      else None
  end.

(** A receive that does not wait: the oldest element and the rest. *)
Definition try_recv {A : Type} (c : option (Chan A)) : option (A * Chan A) :=
  match c with
  | None => None
  | Some ch =>
      match buf ch with
      | [] => None
      | v :: rest => Some (v, mkChan (cap ch) rest)
      end
  end.

(** ** The host OS *)

(** The system calls of the program, with the arguments it passes. *)
Inductive Call :=
| GetModuleHandleW (name : Z)
| LoadIconW (inst res : Z)
| LoadCursorW (inst res : Z)
| RegisterClassW (wc : WindowClass)
| CreateWindowExW (exStyle : Z) (className windowName : option string)
    (style x y width height parent menu instance param : Z)
| ShowWindow (hwnd cmd : Z)
| Shell_NotifyIconW (dwMessage : Z) (nid : notifyIconData)
| DestroyWindow (hwnd : Z)
| PostMessageW (hwnd msg wParam lParam : Z)
| PostQuitMessage (code : Z)
| DefWindowProcW (hwnd msg wParam lParam : Z)
| CreatePopupMenu
| AppendMenuW (hMenu flags id : Z) (text : option string)
| GetCursorPos
| SetForegroundWindow (hwnd : Z)
| TrackPopupMenu (hMenu flags x y reserved hwnd rect : Z)
| DestroyMenu (hMenu : Z).

(** What [LazyProc.Call] hands back: the first result register and the
    last-error value. *)
Record Reply := mkReply { r1 : Z; lastErr : Z }.

(** The Native Shell Gateway: a deterministic machine answering calls.
    [cursorPos] is what [GetCursorPos] left in the caller's [POINT]. *)
Class Gateway (OS : Type) := {
  syscall : Call -> OS -> Reply * OS;
  cursorPos : OS -> POINT
}.

(** ** Observable behaviour *)

Inductive Arg :=
| AInt (z : Z)
| AErr (e : error)
| AStr (s : string).

(** One entry per effect, in program order: a line of output, or a system
    call with the reply it got.  Format strings are the Go source literals,
    escapes unexpanded. *)
Inductive Event :=
| Println (text : string) (args : list Arg)
| Printf (format : string) (args : list Arg)
| LogPrintln (text : string) (args : list Arg)
| LogFatal (text : string) (args : list Arg)
| Sys (c : Call) (r : Reply).

Definition is_sys (e : Event) : bool :=
  match e with Sys _ _ => true | _ => false end.

(** The system calls of a trace, in order. *)
Fixpoint calls_of (t : list Event) : list Call :=
  match t with
  | [] => []
  | Sys c _ :: t' => c :: calls_of t'
  | _ :: t' => calls_of t'
  end.



Definition is_println (text : string) (e : Event) : bool :=
  match e with
  | Println s _ => String.eqb s text
  | _ => false
  end.

Definition count_println (text : string) (t : list Event) : nat :=
  List.length (filter (is_println text) t).

Definition is_log (e : Event) : bool :=
  match e with Sys _ _ => false | _ => true end.

(** ** Process state and the monad of the program *)

(** How a computation ends: it returns a value, it ends the whole process
    with an exit status, or it is parked on an operation that cannot
    proceed in the current state. *)
Inductive Outcome (A : Type) :=
| Ret (a : A)
| Exited (code : Z)
| Blocked.
Arguments Ret {A} _.
Arguments Exited {A} _.
Arguments Blocked {A}.

Section Program.

Context {OS : Type} {G : Gateway OS}.

(** The package-level variables of lines 95-98, the [signals] channel of
    [main], whether the goroutine of lines 243-271 is running, the host
    OS, and the trace so far. *)
Record State := mkState {
  os : OS;
  hInst : Z;
  hWnd : Z;
  mu : bool;
  commands : option (Chan string);
  signals : option (Chan Signal);
  coordinator : bool;
  trace : list Event
}.

Definition M (A : Type) : Type := State -> Outcome A * State.

Definition ret {A : Type} (a : A) : M A := fun st => (Ret a, st).

Definition bind {A B : Type} (m : M A) (k : A -> M B) : M B :=
  fun st =>
    match m st with
    | (Ret a, st') => k a st'
    | (Exited c, st') => (Exited c, st')
    | (Blocked, st') => (Blocked, st')
    end.

Notation "x <- m ;; k" := (bind m (fun x => k))
  (at level 61, m at next level, right associativity).
Notation "m ;; k" := (bind m (fun _ => k))
  (at level 61, right associativity).

Definition set_os (o : OS) (st : State) : State :=
  mkState o (hInst st) (hWnd st) (mu st) (commands st) (signals st)
    (coordinator st) (trace st).
Definition set_hInst (h : Z) (st : State) : State :=
  mkState (os st) h (hWnd st) (mu st) (commands st) (signals st)
    (coordinator st) (trace st).
Definition set_hWnd (h : Z) (st : State) : State :=
  mkState (os st) (hInst st) h (mu st) (commands st) (signals st)
    (coordinator st) (trace st).
Definition set_mu (b : bool) (st : State) : State :=
  mkState (os st) (hInst st) (hWnd st) b (commands st) (signals st)
    (coordinator st) (trace st).
Definition set_commands (c : option (Chan string)) (st : State) : State :=
  mkState (os st) (hInst st) (hWnd st) (mu st) c (signals st)
    (coordinator st) (trace st).
Definition set_signals (c : option (Chan Signal)) (st : State) : State :=
  mkState (os st) (hInst st) (hWnd st) (mu st) (commands st) c
    (coordinator st) (trace st).
Definition set_coordinator (b : bool) (st : State) : State :=
  mkState (os st) (hInst st) (hWnd st) (mu st) (commands st) (signals st)
    b (trace st).
Definition set_trace (t : list Event) (st : State) : State :=
  mkState (os st) (hInst st) (hWnd st) (mu st) (commands st) (signals st)
    (coordinator st) t.

Definition get {A : Type} (f : State -> A) : M A := fun st => (Ret (f st), st).
Definition modify (f : State -> State) : M unit := fun st => (Ret tt, f st).

(** Append one entry to the trace. *)
Definition emit (e : Event) : M unit :=
  modify (fun st => set_trace (trace st ++ [e]) st).

(** [proc.Call(...)]: the gateway answers and moves on; the call is
    recorded with its reply. *)
Definition call (c : Call) : M Reply :=
  fun st =>
    let ro := syscall c (os st) in
    (Ret (fst ro), set_trace (trace st ++ [Sys c (fst ro)]) (set_os (snd ro) st)).

(** [os.Exit(code)]. *)
Definition os_Exit {A : Type} (code : Z) : M A := fun st => (Exited code, st).

(** [log.Fatal(...)]: print, then [os.Exit(1)]. *)
Definition log_Fatal {A : Type} (text : string) (args : list Arg) : M A :=
  emit (LogFatal text args) ;; os_Exit 1.

(** [fmt.Println], [fmt.Printf] and [log.Println]. *)
Definition fmt_Println (text : string) (args : list Arg) : M unit :=
  emit (Println text args).
Definition fmt_Printf (format : string) (args : list Arg) : M unit :=
  emit (Printf format args).
Definition log_Println (text : string) (args : list Arg) : M unit :=
  emit (LogPrintln text args).

(** [mu.Lock()] waits while the mutex is held. *)
Definition mu_Lock : M unit :=
  fun st => if mu st then (Blocked, st) else (Ret tt, set_mu true st).

(** [mu.Unlock()]; unlocking a free mutex is a fatal run-time error, which
    ends the process with status 2. *)
Definition mu_Unlock : M unit :=
  fun st => if mu st then (Ret tt, set_mu false st) else (Exited 2, st).

(** ** Strings handed to the OS *)

Fixpoint has_nul (s : string) : bool :=
  match s with
  | EmptyString => false
  | String c s' => Ascii.eqb c zero || has_nul s'
  end.

(** [windows.UTF16FromString] and [windows.UTF16PtrFromString] fail with
    [EINVAL] on a string that holds a NUL. *)
Definition UTF16FromString (s : string) : string + error :=
  if has_nul s then inr EINVAL else inl s.

(** [copy(dst[:], src)] into a zeroed array of [n] code units. *)
Definition copy_utf16 (n : nat) (s : string) : string := substring 0 n s.

(** ** The functions of main.go *)

(** [postMessage] (lines 157-165). *)
Definition postMessage (hwnd msg wParam lParam : Z) : M bool :=
  r <- call (PostMessageW hwnd msg wParam lParam) ;;
  ret (negb (r1 r =? 0)).

(** [loadIcon] (lines 449-456). *)
Definition loadIcon (inst resourceId : Z) : M Z :=
  r <- call (LoadIconW inst (MAKEINTRESOURCE (uint16 resourceId))) ;;
  if r1 r =? 0
  then log_Println "LoadIcon failed: " [AErr (Errno (lastErr r))] ;; ret 0
  else ret (r1 r).

(** [loadCursor] (lines 458-465). *)
Definition loadCursor (inst resourceId : Z) : M Z :=
  r <- call (LoadCursorW inst (MAKEINTRESOURCE (uint16 resourceId))) ;;
  if r1 r =? 0
  then log_Println "LoadCursor failed: " [AErr (Errno (lastErr r))] ;; ret 0
  else ret (r1 r).

(** [registerClass] (lines 467-473). *)
Definition registerClass (wc : WindowClass) : M (Z * option error) :=
  r <- call (RegisterClassW wc) ;;
  if r1 r =? 0
  then ret (0, Some (Errno (lastErr r)))
  else ret (uint16 (r1 r), None).

(** [destroyWindow] (lines 475-481). *)
Definition destroyWindow (hwnd : Z) : M (option error) :=
  r <- call (DestroyWindow hwnd) ;;
  if r1 r =? 0
  then ret (Some (Errorf "DestroyWindow failed: %w" (Errno (lastErr r))))
  else ret None.

(** [createWindowEx] (lines 483-508).  The position and size are [int]s,
    so their conversion to [uintptr] wraps; the other arguments are
    unsigned already. *)
Definition createWindowEx (exStyle : Z) (className windowName : option string)
    (style x y width height parent menu instance param : Z)
    : M (Z * option error) :=
  r <- call (CreateWindowExW exStyle className windowName style
               (uintptr x) (uintptr y) (uintptr width) (uintptr height)
               parent menu instance param) ;;
  if r1 r =? 0
  then ret (0, Some (Errno (lastErr r)))
  else
    let hwnd := r1 r in
    call (ShowWindow hwnd SW_HIDE) ;;
    ret (hwnd, None).

(** [defWindowProc] (lines 510-514). *)
Definition defWindowProc (hwnd msg wParam lParam : Z) : M Z :=
  fmt_Printf "DefWindowProc: %d\n" [AInt msg] ;;
  r <- call (DefWindowProcW hwnd msg wParam lParam) ;;
  ret (r1 r).

(** The zero value of [notifyIconData]. *)
Definition nid_zero : notifyIconData :=
  mkNid 0 0 0 0 0 "" 0 0 "" 0 "" 0 0.

Definition nid_with_flags (f state : Z) (n : notifyIconData) : notifyIconData :=
  mkNid (HWnd n) (UID n) f (UCallbackMessage n) (HIcon n) (SzTip n) state
    (DwStateMask n) (SzInfo n) (UVersion n) (SzInfoTitle n) (DwInfoFlags n)
    (HBalloonIcon n).

(** [addTrayIcon] (lines 323-355). *)
Definition addTrayIcon (hwnd : Z) : M (option error) :=
  icon <- loadIcon 0 IDI_APPLICATION ;;
  let nid :=
    mkNid hwnd 1
      (Z.lor (Z.lor (Z.lor NIF_ICON NIF_MESSAGE) NIF_TIP) NIF_STATE)
      WM_TRAYICON icon "" 0 NIS_HIDDEN "" 0 "" 0 0 in
  match UTF16FromString "Go SysTray" with
  | inr err => ret (Some err)
  | inl szTip =>
      let nid :=
        mkNid (HWnd nid) (UID nid) (UFlags nid) (UCallbackMessage nid)
          (HIcon nid) (copy_utf16 128 szTip) (DwState nid) (DwStateMask nid)
          (SzInfo nid) (UVersion nid) (SzInfoTitle nid) (DwInfoFlags nid)
          (HBalloonIcon nid) in
      r <- call (Shell_NotifyIconW NIM_ADD nid) ;;
      if r1 r =? 0
      then ret (Some (Errorf "shell_notifyicon failed: %w" (Errno (lastErr r))))
      else
        let nid := nid_with_flags NIF_STATE 0 nid in
        r <- call (Shell_NotifyIconW NIM_MODIFY nid) ;;
        if r1 r =? 0
        then ret (Some (Errorf "shell_notifyicon modify failed: %w"
                          (Errno (lastErr r))))
        else ret None
  end.

(** The record [removeTrayIcon] passes: only the owner and the identifier
    are set. *)
Definition nid_delete (hwnd : Z) : notifyIconData :=
  mkNid hwnd 1 0 0 0 "" 0 0 "" 0 "" 0 0.

(** [removeTrayIcon] (lines 434-447). *)
Definition removeTrayIcon (hwnd : Z) : M (option error) :=
  r <- call (Shell_NotifyIconW NIM_DELETE (nid_delete hwnd)) ;;
  if r1 r =? 0
  then ret (Some (Errorf "shell_notifyicon failed: %w" (Errno (lastErr r))))
  else ret None.

(** [showNotification] (lines 516-550). *)
Definition showNotification (hwnd : Z) (title message : string)
    : M (option error) :=
  icon <- loadIcon 0 IDI_APPLICATION ;;
  match UTF16FromString title with
  | inr err =>
      ret (Some (Errorf "failed to convert title to UTF-16: %w" err))
  | inl titleUTF16 =>
      match UTF16FromString message with
      | inr err =>
          ret (Some (Errorf "failed to convert message to UTF-16: %w" err))
      | inl messageUTF16 =>
          let nid :=
            mkNid hwnd 1 NIF_INFO WM_TRAYICON icon "" 0 0
              (copy_utf16 256 messageUTF16) 0 (copy_utf16 64 titleUTF16)
              NIIF_NONE 0 in
          r <- call (Shell_NotifyIconW NIM_MODIFY nid) ;;
          if r1 r =? 0
          then ret (Some (Errorf "Shell_NotifyIcon failed: %w"
                            (Errno (lastErr r))))
          else ret None
      end
  end.

(** The menu labels of lines 357-361; neither holds a NUL, so both
    pointers are non-nil. *)
Definition openUIText : option string := Some "Open UI".
Definition exitText : option string := Some "Exit".

(** [showMenu] (lines 363-432). *)
Definition showMenu : M unit :=
  m <- call CreatePopupMenu ;;
  let hMenu := r1 m in
  if hMenu =? 0 then ret tt
  else
    call (AppendMenuW hMenu MF_STRING IDM_OPEN_UI openUIText) ;;
    call (AppendMenuW hMenu MF_SEPARATOR 0 None) ;;
    call (AppendMenuW hMenu MF_STRING IDM_EXIT exitText) ;;
    call GetCursorPos ;;
    pt <- get (fun st => cursorPos (os st)) ;;
    mu_Lock ;;
    h <- get hWnd ;;
    f <- call (SetForegroundWindow h) ;;
    (if r1 f =? 0
     then fmt_Println "SetForegroundWindow failed: " [AErr (Errno (lastErr f))]
     else ret tt) ;;
    h <- get hWnd ;;
    t <- call (TrackPopupMenu hMenu
                 (Z.lor (Z.lor TPM_BOTTOMALIGN TPM_LEFTALIGN) TPM_RIGHTBUTTON)
                 (uintptr (int32 (X pt))) (uintptr (int32 (Y pt))) 0 h 0) ;;
    (if r1 t =? 0
     then fmt_Println "TrackPopupMenu failed: " [AErr (Errno (lastErr t))]
     else ret tt) ;;
    mu_Unlock ;;
    fmt_Println "TrackPopupMenu returned: " [AInt (r1 t)] ;;
    call (DestroyMenu hMenu) ;;
    ret tt.

(** The [WM_ENDSESSION] case of [wndProc] (lines 282-284), which the
    [WM_DESTROY] case falls through to. *)
Definition wndProc_endsession (hwnd : Z) : M Z :=
  fmt_Println "WM_ENDSESSION received" [] ;;
  removeTrayIcon hwnd ;;
  ret 0.

(** The inner switch on [lParam] of the [WM_TRAYICON] case (lines 287-297). *)
Definition wndProc_trayicon (lParam : Z) : M Z :=
  if (lParam =? WM_MOUSEMOVE) || (lParam =? WM_LBUTTONDOWN) then ret 0
  else if lParam =? WM_RBUTTONUP then
    fmt_Println "Right button up received" [] ;;
    showMenu ;;
    ret 0
  else if lParam =? 0x404 then ret 0
  else
    fmt_Printf "Unknown mouse event received: %d\n" [AInt lParam] ;;
    ret 0.

(** The [select] of lines 302-307: send if the channel can take the token
    now, otherwise the [default] branch. *)
Definition send_OpenUI : M unit :=
  c <- get commands ;;
  match try_send c "OpenUI" with
  | Some ch => modify (set_commands (Some ch))
  | None => fmt_Println "no listener on OpenUI command" []
  end.

(** The inner switch on [int32(wParam)] of the [WM_COMMAND] case
    (lines 299-313). *)
Definition wndProc_command (hwnd wParam : Z) : M Z :=
  let id := int32 wParam in
  if id =? IDM_OPEN_UI then
    fmt_Printf "opened the UI" [] ;;
    send_OpenUI ;;
    ret 0
  else if id =? IDM_EXIT then
    log_Println "Exit clicked" [] ;;
    postMessage hwnd WM_CLOSE 0 0 ;;
    ret 0
  else
    fmt_Println "Unknown command received" [] ;;
    ret 0.

(** [wndProc] (lines 276-321).  The named result [lResult] is zero unless
    the default case assigns it. *)
Definition wndProc (hwnd msg wParam lParam : Z) : M Z :=
  if msg =? WM_DESTROY then
    fmt_Println "WM_DESTROY received" [] ;;
    call (PostQuitMessage 0) ;;
    wndProc_endsession hwnd
  else if msg =? WM_ENDSESSION then
    wndProc_endsession hwnd
  else if msg =? WM_TRAYICON then
    wndProc_trayicon lParam
  else if msg =? WM_COMMAND then
    wndProc_command hwnd wParam
  else if msg =? WM_CLOSE then
    fmt_Println "WM_CLOSE received" [] ;;
    h <- get hWnd ;;
    destroyWindow h ;;
    ret 0
  else
    defWindowProc hwnd msg wParam lParam.

(** [main] up to the start of the goroutine (lines 180-243): every
    start-up failure goes to [log.Fatal]. *)
Definition main_startup : M unit :=
  fmt_Println "About to call GetModuleHandle" [] ;;
  r <- call (GetModuleHandleW 0) ;;
  if r1 r =? 0 then log_Fatal "GetModuleHandle failed: returned NULL" []
  else
    modify (set_hInst (r1 r)) ;;
    match UTF16FromString "SysTrayWindowClass" with
    | inr err => log_Fatal "UTF16PtrFromString: " [AErr err]
    | inl className =>
        inst <- get hInst ;;
        icon <- loadIcon 0 IDI_APPLICATION ;;
        cursor <- loadCursor 0 IDC_ARROW ;;
        let wndClass :=
          mkWindowClass (Z.lor CS_HREDRAW CS_VREDRAW) 0 0 inst icon cursor
            (COLOR_WINDOW + 1) None (Some className) in
        rc <- registerClass wndClass ;;
        match snd rc with
        | Some err => log_Fatal "RegisterClass: " [AErr err]
        | None =>
            inst <- get hInst ;;
            cw <- createWindowEx 0 (Some className) None WS_OVERLAPPEDWINDOW
                    CW_USEDEFAULT CW_USEDEFAULT CW_USEDEFAULT CW_USEDEFAULT
                    0 0 inst 0 ;;
            modify (set_hWnd (fst cw)) ;;
            match snd cw with
            | Some err => log_Fatal "CreateWindowEx: " [AErr err]
            | None =>
                h <- get hWnd ;;
                e <- addTrayIcon h ;;
                match e with
                | Some err => log_Fatal "addTrayIcon: " [AErr err]
                | None =>
                    h <- get hWnd ;;
                    e <- showNotification h "Screen Time"
                           "This is a test notification!" ;;
                    match e with
                    | Some err => log_Fatal "showNotification: " [AErr err]
                    | None =>
                        modify (set_commands (Some (make_chan COMMANDS_CAP))) ;;
                        modify (set_signals (Some (make_chan SIGNALS_CAP))) ;;
                        modify (set_coordinator true)
                    end
                end
            end
        end
    end.

(** The [commands] case of the goroutine's [select] (lines 246-253). *)
Definition coordinator_command (cmd : string) (rest : Chan string) : M bool :=
  modify (set_commands (Some rest)) ;;
  (if String.eqb cmd "OpenUI"
   then fmt_Println "Command to open UI received" []
   else ret tt) ;;
  ret true.

(** The [signals] case of the goroutine's [select] (lines 254-268). *)
Definition coordinator_signal (rest : Chan Signal) : M bool :=
  modify (set_signals (Some rest)) ;;
  fmt_Println "Signal received" [] ;;
  h <- get hWnd ;;
  sucess <- postMessage h WM_CLOSE 0 0 ;;
  (if negb sucess
   then fmt_Println "PostMessage to close window failed" []
   else ret tt) ;;
  h <- get hWnd ;;
  if negb (h =? 0) then
    removeTrayIcon h ;;
    destroyWindow h ;;
    os_Exit 0
  else ret false.

(** One iteration of the goroutine's loop (lines 244-270).  The [select]
    has no default: with nothing to receive the goroutine is parked; with
    both channels ready Go picks either case, here by [pick].  The result
    is [true] when the loop goes round again and [false] when the goroutine
    returned. *)
Definition coordinator_iter (pick : bool) : M bool :=
  cs <- get commands ;;
  ss <- get signals ;;
  match try_recv cs, try_recv ss with
  | None, None => fun st => (Blocked, st)
  | Some (cmd, rest), None => coordinator_command cmd rest
  | None, Some (_, rest) => coordinator_signal rest
  | Some (cmd, crest), Some (_, srest) =>
      if pick then coordinator_command cmd crest
      else coordinator_signal srest
  end.


(** ** The running process

    After start-up three things happen, in any order: the message pump
    hands a message to [wndProc], the goroutine makes one turn of its loop,
    and the OS delivers a termination signal, which [signal.Notify] puts on
    [signals] without waiting (a signal that finds the buffer full is
    dropped).

    Two things are no step.  A [Dispatch] hands a message to [wndProc]
    between two calls of the program, as [DispatchMessage] does from
    [runMessageLoop]; an invocation made from inside a system call, such as
    a right click dispatched by the modal loop of [TrackPopupMenu] while
    [showMenu] holds the mutex, is not a step of a run.  And a run does not
    end by itself: the return of [runMessageLoop] on [GetMessage <= 0], and
    of [main] after it, is left out, so that the outcome [Exited] of a run
    always stands for a call of [os.Exit].  A goroutine turn that finds
    nothing ready leaves the goroutine parked and the process going. *)
Inductive Step :=
| Dispatch (hwnd msg wParam lParam : Z)
| Coord (pick : bool)
| Deliver (sig : Signal).

Definition step (s : Step) : M unit :=
  match s with
  | Dispatch hwnd msg wParam lParam =>
      wndProc hwnd msg wParam lParam ;; ret tt
  | Coord pick =>
      fun st =>
        if coordinator st then
          match coordinator_iter pick st with
          | (Ret true, st') => (Ret tt, st')
          | (Ret false, st') => (Ret tt, set_coordinator false st')
          | (Exited c, st') => (Exited c, st')
          | (Blocked, _) => (Ret tt, st)
          end
        else (Ret tt, st)
  | Deliver sig =>
      ss <- get signals ;;
      match try_send ss sig with
      | Some ch => modify (set_signals (Some ch))
      | None => ret tt
      end
  end.

Fixpoint run (steps : list Step) : M unit :=
  match steps with
  | [] => ret tt
  | s :: rest => step s ;; run rest
  end.


End Program.

Arguments State OS : clear implicits.
Arguments M OS A : clear implicits.

(** The process before [main] runs: every package-level variable holds its
    zero value. *)
Definition init_state {OS : Type} (o : OS) : State OS :=
  mkState o 0 0 false None None false [].

(** ** A small simulated shell

    One gateway to run the program on: it keeps track of the tray icon, the
    window and the live popup menus, and fails a call the way the host
    would (deleting an absent icon, destroying a window twice).  Three
    switches make a start-up call fail.  The theorems below hold for every
    gateway; this one supplies concrete runs. *)
Module Sim.

Record Shell := mkShell {
  module_handle : Z;
  state_modify_ok : bool;
  info_modify_ok : bool;
  icon : bool;
  window : option Z;
  menus : list Z;
  next_handle : Z;
  cursor : POINT
}.

Definition ok : Reply := mkReply 1 0.
Definition fail (e : Z) : Reply := mkReply 0 e.
Definition handle (h : Z) : Reply := mkReply h 0.

Definition owns (o : Shell) (hwnd : Z) : bool :=
  match window o with
  | Some h => h =? hwnd
  | None => false
  end.

Definition has_menu (o : Shell) (h : Z) : bool :=
  existsb (Z.eqb h) (menus o).

Definition with_icon (b : bool) (o : Shell) : Shell :=
  mkShell (module_handle o) (state_modify_ok o) (info_modify_ok o) b
    (window o) (menus o) (next_handle o) (cursor o).

Definition with_window (w : option Z) (o : Shell) : Shell :=
  mkShell (module_handle o) (state_modify_ok o) (info_modify_ok o) (icon o)
    w (menus o) (next_handle o) (cursor o).

Definition with_menus (m : list Z) (o : Shell) : Shell :=
  mkShell (module_handle o) (state_modify_ok o) (info_modify_ok o) (icon o)
    (window o) m (next_handle o) (cursor o).

Definition fresh (o : Shell) : Shell :=
  mkShell (module_handle o) (state_modify_ok o) (info_modify_ok o) (icon o)
    (window o) (menus o) (next_handle o + 1) (cursor o).

Definition notify_icon (dwMessage : Z) (nid : notifyIconData) (o : Shell)
    : Reply * Shell :=
  if dwMessage =? NIM_ADD then
    if icon o then (fail 1008, o) else (ok, with_icon true o)
  else if dwMessage =? NIM_MODIFY then
    let allowed :=
      if Z.testbit (UFlags nid) 4 then info_modify_ok o else state_modify_ok o in
    if icon o && allowed then (ok, o) else (fail 1008, o)
  else if dwMessage =? NIM_DELETE then
    if icon o then (ok, with_icon false o) else (fail 1008, o)
  else (fail 87, o).

Definition answer (c : Call) (o : Shell) : Reply * Shell :=
  match c with
  | GetModuleHandleW _ =>
      if module_handle o =? 0 then (fail 126, o) else (handle (module_handle o), o)
  | LoadIconW _ _ => (handle 0x10003, o)
  | LoadCursorW _ _ => (handle 0x10005, o)
  | RegisterClassW _ => (handle 0xC1A0, o)
  | CreateWindowExW _ _ _ _ _ _ _ _ _ _ _ _ =>
      (handle (next_handle o), fresh (with_window (Some (next_handle o)) o))
  | ShowWindow _ _ => (mkReply 0 0, o)
  | Shell_NotifyIconW m nid => notify_icon m nid o
  | DestroyWindow h =>
      if owns o h then (ok, with_window None o) else (fail 1400, o)
  | PostMessageW h _ _ _ => if owns o h then (ok, o) else (fail 1400, o)
  | PostQuitMessage _ => (mkReply 0 0, o)
  | DefWindowProcW _ _ _ _ => (mkReply 0 0, o)
  | CreatePopupMenu =>
      (handle (next_handle o), fresh (with_menus (next_handle o :: menus o) o))
  | AppendMenuW h _ _ _ => if has_menu o h then (ok, o) else (fail 1401, o)
  | GetCursorPos => (ok, o)
  | SetForegroundWindow h => if owns o h then (ok, o) else (fail 1400, o)
  | TrackPopupMenu h _ _ _ _ _ _ => if has_menu o h then (ok, o) else (fail 1401, o)
  | DestroyMenu h =>
      if has_menu o h
      then (ok, with_menus (filter (fun m => negb (m =? h)) (menus o)) o)
      else (fail 1401, o)
  end.

#[global] Instance gateway : Gateway Shell := {
  syscall := answer;
  cursorPos := cursor
}.

(** A healthy host at process start. *)
Definition boot : Shell :=
  mkShell 0x400000 true true false None [] 0x1001 (mkPOINT 1900 1060).

(** Hosts on which one start-up call fails. *)
Definition boot_no_module : Shell :=
  mkShell 0 true true false None [] 0x1001 (mkPOINT 1900 1060).
Definition boot_no_state_modify : Shell :=
  mkShell 0x400000 false true false None [] 0x1001 (mkPOINT 1900 1060).
Definition boot_no_balloon : Shell :=
  mkShell 0x400000 true false false None [] 0x1001 (mkPOINT 1900 1060).

(** The process as [main] leaves it when it enters the message loop on the
    healthy host. *)
Definition running : State Shell :=
  Eval vm_compute in snd (main_startup (init_state boot)).

End Sim.

(** ** Concrete runs on the simulated shell *)

Module Runs.

(** The running process with one termination signal delivered and not yet
    taken by the goroutine. *)
Definition signalled : State Sim.Shell :=
  Eval vm_compute in snd (run [Deliver SIGTERM] Sim.running).

(** The running process after a session-end notification: the tray icon
    is gone. *)
Definition session_ended : State Sim.Shell :=
  Eval vm_compute in snd (wndProc 0x1001 WM_ENDSESSION 0 0 Sim.running).

(** Start-up on the host that refuses the balloon. *)
Definition balloon_refused : Outcome unit * State Sim.Shell :=
  Eval vm_compute in main_startup (init_state Sim.boot_no_balloon).

(** The balloon request of [showNotification] as [main] issues it. *)
Definition balloon_request : notifyIconData :=
  mkNid 0x1001 1 NIF_INFO WM_TRAYICON 0x10003 "" 0 0
    "This is a test notification!" 0 "Screen Time" NIIF_NONE 0.

End Runs.


(** ** Vocabulary for whole runs *)

(** The procedure a call goes to; a shell notification keeps its message. *)
Inductive Proc :=
| PGetModuleHandleW
| PLoadIconW
| PLoadCursorW
| PRegisterClassW
| PCreateWindowExW
| PShowWindow
| PShell_NotifyIconW (dwMessage : Z)
| PDestroyWindow
| PPostMessageW
| PPostQuitMessage
| PDefWindowProcW
| PCreatePopupMenu
| PAppendMenuW
| PGetCursorPos
| PSetForegroundWindow
| PTrackPopupMenu
| PDestroyMenu.

Definition proc_of (c : Call) : Proc :=
  match c with
  | GetModuleHandleW _ => PGetModuleHandleW
  | LoadIconW _ _ => PLoadIconW
  | LoadCursorW _ _ => PLoadCursorW
  | RegisterClassW _ => PRegisterClassW
  | CreateWindowExW _ _ _ _ _ _ _ _ _ _ _ _ => PCreateWindowExW
  | ShowWindow _ _ => PShowWindow
  | Shell_NotifyIconW m _ => PShell_NotifyIconW m
  | DestroyWindow _ => PDestroyWindow
  | PostMessageW _ _ _ _ => PPostMessageW
  | PostQuitMessage _ => PPostQuitMessage
  | DefWindowProcW _ _ _ _ => PDefWindowProcW
  | CreatePopupMenu => PCreatePopupMenu
  | AppendMenuW _ _ _ _ => PAppendMenuW
  | GetCursorPos => PGetCursorPos
  | SetForegroundWindow _ => PSetForegroundWindow
  | TrackPopupMenu _ _ _ _ _ _ _ => PTrackPopupMenu
  | DestroyMenu _ => PDestroyMenu
  end.

(** The calls of a start-up that goes through, in program order
    (main.go, lines 183-232). *)
Definition startup_procs : list Proc :=
  [PGetModuleHandleW; PLoadIconW; PLoadCursorW; PRegisterClassW;
   PCreateWindowExW; PShowWindow;
   PLoadIconW; PShell_NotifyIconW NIM_ADD; PShell_NotifyIconW NIM_MODIFY;
   PLoadIconW; PShell_NotifyIconW NIM_MODIFY].

(** The calls that give a resource back. *)
Definition is_release (p : Proc) : bool :=
  match p with
  | PDestroyWindow | PDestroyMenu | PPostQuitMessage => true
  | PShell_NotifyIconW m => m =? NIM_DELETE
  | _ => false
  end.

(** What a computation added to the trace: the entries of [st'] past those
    of [st]. *)
Definition added {OS : Type} (st st' : State OS) : list Event :=
  skipn (List.length (trace st)) (trace st').

(** The icon requests of a trace, message and record, and the windows a
    trace shows or hides, handle and command. *)
Definition icon_requests (t : list Event) : list (Z * notifyIconData) :=
  flat_map (fun e => match e with
                     | Sys (Shell_NotifyIconW m nid) _ => [(m, nid)]
                     | _ => []
                     end) t.

Definition shown_windows (t : list Event) : list (Z * Z) :=
  flat_map (fun e => match e with
                     | Sys (ShowWindow h cmd) _ => [(h, cmd)]
                     | _ => []
                     end) t.

(** A step that hands an "Open UI" command notification to [wndProc]. *)
Definition is_open_ui (s : Step) : bool :=
  match s with
  | Dispatch _ msg wParam _ =>
      (msg =? WM_COMMAND) && (int32 wParam =? IDM_OPEN_UI)
  | _ => false
  end.

(** A step that is a turn of the goroutine. *)
Definition is_coord (s : Step) : bool :=
  match s with
  | Coord _ => true
  | _ => false
  end.

(** Tokens waiting in [commands], signals waiting in [signals]. *)
Definition queued {OS : Type} (st : State OS) : nat :=
  match commands st with
  | Some ch => List.length (buf ch)
  | None => 0%nat
  end.

Definition pending {OS : Type} (st : State OS) : nat :=
  match signals st with
  | Some ch => List.length (buf ch)
  | None => 0%nat
  end.

(** The shape of the process between two steps once [main] has reached the
    message loop: a window handle, the goroutine running, the mutex free,
    and the two queues within their capacities, with nothing but "OpenUI"
    tokens in the first. *)
Definition started {OS : Type} (st : State OS) : bool :=
  negb (hWnd st =? 0) && coordinator st && negb (mu st) &&
  match commands st with
  | Some ch =>
      (cap ch =? COMMANDS_CAP)%nat &&
      (List.length (buf ch) <=? cap ch)%nat &&
      forallb (String.eqb "OpenUI") (buf ch)
  | None => false
  end &&
  match signals st with
  | Some ch =>
      (cap ch =? SIGNALS_CAP)%nat && (List.length (buf ch) <=? cap ch)%nat
  | None => false
  end.

(** A process that was entered while the mutex is held, as a nested
    invocation would find it. *)
Definition mutex_held {OS : Type} (st : State OS) : State OS :=
  mkState (os st) (hInst st) (hWnd st) true (commands st) (signals st)
    (coordinator st) (trace st).

(** The two lines that account for a token. *)
Definition ACK : string := "Command to open UI received".
Definition DROP : string := "no listener on OpenUI command".

(** What one step from a [started] state does. *)
Definition step_report {OS : Type} (s : Step) (st st' : State OS)
    (out : Outcome unit) (u : list Event) : Prop :=
  trace st' = trace st ++ u /\
  hWnd st' = hWnd st /\
  (forall (m : Z) (nid : notifyIconData) (r : Reply),
      In (Sys (Shell_NotifyIconW m nid) r) u -> m = NIM_DELETE) /\
  match out with
  | Ret _ =>
      started st' = true /\
      (count_println ACK u + count_println DROP u + queued st' =
       queued st + (if is_open_ui s then 1 else 0))%nat
  | Exited c => c = 0 /\ is_open_ui s = false /\ (0 < pending st)%nat
  | Blocked => False
  end.

(** ** More concrete cases on the simulated shell *)

Module Cases.

(** The add request of [addTrayIcon] for window 0x1001. *)
Definition tray_request : notifyIconData :=
  mkNid 0x1001 1 15 WM_TRAYICON 0x10003 "Go SysTray" 0 NIS_HIDDEN "" 0 "" 0 0.

(** A title with a NUL in it. *)
Definition nul_title : string := String "A" (String zero "B").

(** Twelve "Open UI" notifications, then three goroutine turns. *)
Definition busy_steps : list Step :=
  repeat (Dispatch 0x1001 WM_COMMAND IDM_OPEN_UI 0) 12 ++
  [Coord true; Coord true; Coord true].

(** The "Exit" entry followed through, then a signal. *)
Definition exit_then_signal : list Step :=
  [Dispatch 0x1001 WM_COMMAND IDM_EXIT 0;
   Dispatch 0x1001 WM_CLOSE 0 0;
   Dispatch 0x1001 WM_DESTROY 0 0;
   Deliver SIGTERM].

(** What follows a signal: a click on "Open UI" and a pointer move, each
    before a goroutine turn that prefers the command case. *)
Definition clicks_after_signal : list Step :=
  [Dispatch 0x1001 WM_COMMAND IDM_OPEN_UI 0;
   Coord true;
   Dispatch 0x1001 WM_TRAYICON 0 WM_MOUSEMOVE;
   Coord true].

End Cases.

(** * Properties *)

Arguments uintptr : simpl never.
Arguments int32 : simpl never.
Arguments uint16 : simpl never.

Section Properties.

Context {OS : Type} {G : Gateway OS}.

(** Unfold the program down to the gateway. *)
Ltac prog :=
  unfold wndProc, wndProc_endsession, wndProc_trayicon, wndProc_command,
    send_OpenUI, showMenu, removeTrayIcon, destroyWindow, postMessage,
    defWindowProc, coordinator_iter, coordinator_command, coordinator_signal,
    mu_Lock, mu_Unlock, os_Exit, log_Fatal,
    fmt_Println, fmt_Printf, log_Println, emit, call, modify, get, bind, ret.

(** Name the reply and the next OS state of the first pending call. *)
Ltac sys :=
  match goal with
  | |- context [syscall ?c ?o] =>
      is_var o;
      let r := fresh "r" in
      let o' := fresh "o" in
      destruct (syscall c o) as [r o'] eqn:?; cbn
  end.

(** Split on whether the reply just named reports failure. *)
Ltac branch :=
  match goal with
  | |- context [if r1 ?r =? 0 then _ else _] =>
      is_var r; destruct (r1 r =? 0) eqn:?; cbn
  end.

Ltac go := repeat first [sys | branch].

Ltac tidy := repeat rewrite <- app_assoc; cbn [app].

(** ** The primitives *)

Lemma call_eq (c : Call) (st : State OS) :
  call c st =
    (Ret (fst (syscall c (os st))),
     set_trace (trace st ++ [Sys c (fst (syscall c (os st)))])
       (set_os (snd (syscall c (os st))) st)).
Proof. reflexivity. Qed.


Lemma try_send_full {A : Type} (ch : Chan A) (v : A) :
  (cap ch <= List.length (buf ch))%nat -> try_send (Some ch) v = None.
Proof.
  intros H. unfold try_send.
  destruct (Nat.ltb_spec (List.length (buf ch)) (cap ch)); [lia|reflexivity].
Qed.

Lemma try_send_room {A : Type} (ch : Chan A) (v : A) :
  (List.length (buf ch) < cap ch)%nat ->
  try_send (Some ch) v = Some (mkChan (cap ch) (buf ch ++ [v])).
Proof.
  intros H. unfold try_send.
  destruct (Nat.ltb_spec (List.length (buf ch)) (cap ch)); [reflexivity|lia].
Qed.

(** ** The window procedure *)

(** The session-end case: one line of output, one delete request, result
    zero, whatever the shell answers. *)
Lemma wndProc_endsession_eq (st : State OS) (hwnd w l : Z) :
  let del := Shell_NotifyIconW NIM_DELETE (nid_delete hwnd) in
  wndProc hwnd WM_ENDSESSION w l st =
    (Ret 0,
     set_trace (trace st ++ [Println "WM_ENDSESSION received" [];
                             Sys del (fst (syscall del (os st)))])
       (set_os (snd (syscall del (os st))) st)).
Proof.
  destruct st. prog. cbn.
  destruct (r1 (fst (syscall _ _)) =? 0); cbn; tidy; reflexivity.
Qed.

(** C6: on a destroy notification the window procedure first posts the
    quit request and then runs the session-end case, that is, it asks the
    shell to delete the tray icon of the window it was called for. *)
Theorem wndProc_destroy_quits_then_removes_icon
    (st : State OS) (hwnd w l : Z) :
  exists (rq rd : Reply) (st1 st' : State OS),
    wndProc hwnd WM_DESTROY w l st = (Ret 0, st') /\
    trace st' = trace st ++
                  [Println "WM_DESTROY received" [];
                   Sys (PostQuitMessage 0) rq;
                   Println "WM_ENDSESSION received" [];
                   Sys (Shell_NotifyIconW NIM_DELETE (nid_delete hwnd)) rd] /\
    trace st1 = trace st ++
                  [Println "WM_DESTROY received" [];
                   Sys (PostQuitMessage 0) rq] /\
    wndProc hwnd WM_DESTROY w l st = wndProc hwnd WM_ENDSESSION w l st1.
Proof.
  destruct st as [o hi hw m cs ss co t].
  destruct (syscall (PostQuitMessage 0) o) as [rq o1] eqn:Eq.
  destruct (syscall (Shell_NotifyIconW NIM_DELETE (nid_delete hwnd)) o1)
    as [rd o2] eqn:Ed.
  exists rq, rd, (mkState o1 hi hw m cs ss co
                    (t ++ [Println "WM_DESTROY received" [];
                           Sys (PostQuitMessage 0) rq])).
  rewrite wndProc_endsession_eq. prog. cbn. rewrite Eq. cbn. rewrite Ed. cbn.
  destruct (r1 rd =? 0); cbn; eexists; tidy; repeat split; try reflexivity.
Qed.

(** The tray callback looks at [lParam] only. *)
Lemma wndProc_trayicon_eq (st : State OS) (hwnd w l : Z) :
  wndProc hwnd WM_TRAYICON w l st = wndProc_trayicon l st.
Proof. reflexivity. Qed.

(** A command notification is routed on [int32(wParam)]. *)
Lemma wndProc_command_eq (st : State OS) (hwnd w l : Z) :
  wndProc hwnd WM_COMMAND w l st = wndProc_command hwnd w st.
Proof. reflexivity. Qed.

(** "Open UI" with room in the queue: the token is queued. *)
Lemma wndProc_open_ui_queued (st : State OS) (hwnd w l : Z) (ch : Chan string) :
  int32 w = IDM_OPEN_UI ->
  commands st = Some ch ->
  (List.length (buf ch) < cap ch)%nat ->
  wndProc hwnd WM_COMMAND w l st =
    (Ret 0,
     set_commands (Some (mkChan (cap ch) (buf ch ++ ["OpenUI"])))
       (set_trace (trace st ++ [Printf "opened the UI" []]) st)).
Proof.
  intros Hw Hc Hlen. rewrite wndProc_command_eq.
  destruct st as [o hi hw m cs ss co t]. cbn in Hc. subst cs.
  prog. rewrite Hw. cbn -[try_send]. rewrite try_send_room by assumption.
  reflexivity.
Qed.

(** "Open UI" with a full queue: the token is dropped and the drop is
    printed. *)
Lemma wndProc_open_ui_dropped (st : State OS) (hwnd w l : Z) (ch : Chan string) :
  int32 w = IDM_OPEN_UI ->
  commands st = Some ch ->
  (cap ch <= List.length (buf ch))%nat ->
  wndProc hwnd WM_COMMAND w l st =
    (Ret 0,
     set_trace (trace st ++ [Printf "opened the UI" [];
                             Println "no listener on OpenUI command" []]) st).
Proof.
  intros Hw Hc Hlen. rewrite wndProc_command_eq.
  destruct st as [o hi hw m cs ss co t]. cbn in Hc. subst cs.
  prog. rewrite Hw. cbn -[try_send]. rewrite try_send_full by assumption.
  cbn. tidy. reflexivity.
Qed.

(** C10: with [commands] still nil the "Open UI" notification does not
    wait: the send is not ready, the default branch prints the drop, and
    the window procedure returns zero with nothing else changed. *)
Theorem wndProc_open_ui_nil_channel (st : State OS) (hwnd w l : Z) :
  commands st = None ->
  int32 w = IDM_OPEN_UI ->
  wndProc hwnd WM_COMMAND w l st =
    (Ret 0,
     set_trace (trace st ++ [Printf "opened the UI" [];
                             Println "no listener on OpenUI command" []]) st).
Proof.
  intros Hc Hw. rewrite wndProc_command_eq.
  destruct st as [o hi hw m cs ss co t]. cbn in Hc. subst cs.
  prog. rewrite Hw. cbn. tidy. reflexivity.
Qed.

(** The "exit" command: one line in the log and one close request posted
    to the window the notification came for. *)
Lemma wndProc_exit_eq (st : State OS) (hwnd w l : Z) :
  int32 w = IDM_EXIT ->
  let post := PostMessageW hwnd WM_CLOSE 0 0 in
  wndProc hwnd WM_COMMAND w l st =
    (Ret 0,
     set_trace (trace st ++ [LogPrintln "Exit clicked" [];
                             Sys post (fst (syscall post (os st)))])
       (set_os (snd (syscall post (os st))) st)).
Proof.
  intros Hw. rewrite wndProc_command_eq.
  destruct st as [o hi hw m cs ss co t].
  prog. rewrite Hw. cbn. tidy. reflexivity.
Qed.

(** C2 (as the code has it): "exit" is command 1 and "open UI" is command 2, the
    tray callback is the user message base plus one, and the window
    procedure dispatches on exactly these values: command 2 takes the
    enqueue path, command 1 posts the close request, message 0x401 goes to
    the tray switch. *)
Theorem command_identifiers_and_dispatch :
  IDM_EXIT = 1 /\ IDM_OPEN_UI = 2 /\
  WM_TRAYICON = WM_USER + 1 /\ WM_TRAYICON = 0x401 /\
  (forall (st : State OS) (hwnd l : Z),
      wndProc hwnd WM_COMMAND 2 l st =
        bind (fmt_Printf "opened the UI" [])
          (fun _ => bind send_OpenUI (fun _ => ret 0)) st) /\
  (forall (st : State OS) (hwnd l : Z),
      wndProc hwnd WM_COMMAND 1 l st =
        bind (log_Println "Exit clicked" [])
          (fun _ => bind (postMessage hwnd WM_CLOSE 0 0) (fun _ => ret 0)) st) /\
  (forall (st : State OS) (hwnd w l : Z),
      wndProc hwnd 0x401 w l st = wndProc_trayicon l st).
Proof.
  repeat split; reflexivity.
Qed.

(** C8 (as the code has it): a tray callback whose sub-code is none of pointer
    move, left button down and right button up is answered with zero; it
    prints the unknown sub-code and does nothing else, except for sub-code
    0x404, which is passed over without any output. *)
Theorem wndProc_tray_other_subcode (st : State OS) (hwnd w l : Z) :
  l <> WM_MOUSEMOVE -> l <> WM_LBUTTONDOWN -> l <> WM_RBUTTONUP ->
  wndProc hwnd WM_TRAYICON w l st =
    (Ret 0,
     if l =? 0x404 then st
     else set_trace
            (trace st ++ [Printf "Unknown mouse event received: %d\n" [AInt l]])
            st).
Proof.
  intros Hm Hl Hr. rewrite wndProc_trayicon_eq. unfold wndProc_trayicon.
  apply Z.eqb_neq in Hm, Hl, Hr. rewrite Hm, Hl, Hr. cbn.
  destruct (l =? 0x404); prog; reflexivity.
Qed.

(** The three sub-codes the claim excludes do what the routing table says:
    the two pointer codes are passed over. *)
Lemma wndProc_tray_pointer_noop (st : State OS) (hwnd w l : Z) :
  l = WM_MOUSEMOVE \/ l = WM_LBUTTONDOWN ->
  wndProc hwnd WM_TRAYICON w l st = (Ret 0, st).
Proof.
  intros [H|H]; subst l; reflexivity.
Qed.

(** ** The tray icon *)

(** [removeTrayIcon] reports a zero reply as an error that carries the
    shell's last-error value. *)
Lemma removeTrayIcon_eq (st : State OS) (hwnd : Z) :
  let del := Shell_NotifyIconW NIM_DELETE (nid_delete hwnd) in
  let r := fst (syscall del (os st)) in
  removeTrayIcon hwnd st =
    (Ret (if r1 r =? 0
          then Some (Errorf "shell_notifyicon failed: %w" (Errno (lastErr r)))
          else None),
     set_trace (trace st ++ [Sys del r]) (set_os (snd (syscall del (os st))) st)).
Proof.
  destruct st. prog. cbn.
  destruct (r1 (fst (syscall _ _)) =? 0); reflexivity.
Qed.

(** ** The context menu *)


(** When no menu can be created nothing else is called: there is nothing
    to destroy. *)
Lemma showMenu_no_menu (st : State OS) :
  r1 (fst (syscall CreatePopupMenu (os st))) = 0 ->
  showMenu st =
    (Ret tt,
     set_trace (trace st ++ [Sys CreatePopupMenu
                               (fst (syscall CreatePopupMenu (os st)))])
       (set_os (snd (syscall CreatePopupMenu (os st))) st)).
Proof.
  destruct st as [o hi hw m cs ss co t]. cbn [os trace]. intros Hc.
  prog. cbn. rewrite Hc. reflexivity.
Qed.

(** ** The coordinator *)

(** Which case the [select] takes. *)
Lemma coordinator_iter_signal (st : State OS) (pick : bool)
    (sig : Signal) (rest : Chan Signal) :
  try_recv (signals st) = Some (sig, rest) ->
  try_recv (commands st) = None \/ pick = false ->
  coordinator_iter pick st = coordinator_signal rest st.
Proof.
  intros Hs Hc. unfold coordinator_iter, bind, get.
  rewrite Hs. destruct Hc as [Hc|Hc].
  - rewrite Hc. reflexivity.
  - subst pick. destruct (try_recv (commands st)) as [[cmd crest]|]; reflexivity.
Qed.

Lemma coordinator_iter_command (st : State OS) (pick : bool)
    (cmd : string) (rest : Chan string) :
  try_recv (commands st) = Some (cmd, rest) ->
  try_recv (signals st) = None \/ pick = true ->
  coordinator_iter pick st = coordinator_command cmd rest st.
Proof.
  intros Hc Hs. unfold coordinator_iter, bind, get.
  rewrite Hc. destruct Hs as [Hs|Hs].
  - rewrite Hs. reflexivity.
  - subst pick. destruct (try_recv (signals st)) as [[sig srest]|]; reflexivity.
Qed.


(** The signal case with a window: close request, icon removal, window
    destruction, exit with status 0.  The results of the removal and of the
    destruction are not looked at. *)
Lemma coordinator_signal_exits (st : State OS) (rest : Chan Signal) :
  hWnd st <> 0 ->
  exists (rp : Reply) (st0 : State OS),
    trace st0 = trace st ++
                  [Println "Signal received" [];
                   Sys (PostMessageW (hWnd st) WM_CLOSE 0 0) rp] ++
                  (if r1 rp =? 0
                   then [Println "PostMessage to close window failed" []]
                   else []) /\
    hWnd st0 = hWnd st /\
    coordinator_signal rest st =
      (Exited 0,
       snd (destroyWindow (hWnd st) (snd (removeTrayIcon (hWnd st) st0)))).
Proof.
  destruct st as [o hi hw m cs ss co t]. cbn [hWnd trace]. intros Hh.
  apply Z.eqb_neq in Hh.
  destruct (syscall (PostMessageW hw WM_CLOSE 0 0) o) as [rp o1] eqn:Ep.
  exists rp.
  exists (mkState o1 hi hw m cs (Some rest) co
            (t ++ [Println "Signal received" [];
                   Sys (PostMessageW hw WM_CLOSE 0 0) rp] ++
                  (if r1 rp =? 0
                   then [Println "PostMessage to close window failed" []]
                   else []))).
  split; [reflexivity|]. split; [reflexivity|].
  prog. cbn. rewrite Ep. cbn.
  destruct (r1 rp =? 0); cbn; rewrite Hh; cbn; tidy;
    repeat match goal with
      | |- context [r1 (fst (syscall ?c ?o)) =? 0] =>
          destruct (r1 (fst (syscall c o)) =? 0); cbn
      end; reflexivity.
Qed.

(** The signal case without a window: the close request is still posted,
    then the goroutine returns and the process lives on. *)
Lemma coordinator_signal_returns (st : State OS) (rest : Chan Signal) :
  hWnd st = 0 ->
  exists (rp : Reply) (st' : State OS),
    coordinator_signal rest st = (Ret false, st') /\
    trace st' = trace st ++
                  [Println "Signal received" [];
                   Sys (PostMessageW 0 WM_CLOSE 0 0) rp] ++
                  (if r1 rp =? 0
                   then [Println "PostMessage to close window failed" []]
                   else []).
Proof.
  destruct st as [o hi hw m cs ss co t]. cbn [hWnd trace]. intros Hh. subst hw.
  prog. cbn. sys. exists r.
  destruct (r1 r =? 0); cbn; eexists; (split; [reflexivity|]);
    cbn; tidy; reflexivity.
Qed.

(** C1: a termination signal taken by the coordinator while [hWnd] is
    non-zero makes it post one close request to the window, delete the tray
    icon once, destroy the window once, in this order, and end the process
    with status 0; these three are its only system calls. *)
Theorem coordinator_signal_shutdown_sequence (st : State OS) (pick : bool)
    (sig : Signal) (rest : Chan Signal) :
  hWnd st <> 0 ->
  try_recv (signals st) = Some (sig, rest) ->
  try_recv (commands st) = None \/ pick = false ->
  exists (rp rd rw : Reply) (t : list Event) (st' : State OS),
    coordinator_iter pick st = (Exited 0, st') /\
    trace st' = trace st ++ t /\
    t = [Println "Signal received" [];
         Sys (PostMessageW (hWnd st) WM_CLOSE 0 0) rp] ++
        (if r1 rp =? 0
         then [Println "PostMessage to close window failed" []]
         else []) ++
        [Sys (Shell_NotifyIconW NIM_DELETE (nid_delete (hWnd st))) rd;
         Sys (DestroyWindow (hWnd st)) rw] /\
    calls_of t =
      [PostMessageW (hWnd st) WM_CLOSE 0 0;
       Shell_NotifyIconW NIM_DELETE (nid_delete (hWnd st));
       DestroyWindow (hWnd st)].
Proof.
  intros Hh Hs Hc.
  rewrite (coordinator_iter_signal st pick sig rest Hs Hc).
  destruct (coordinator_signal_exits st rest Hh) as (rp & st0 & Ht & Hw & E).
  rewrite E. rewrite removeTrayIcon_eq.
  destruct st0 as [o0 hi0 hw0 m0 cs0 ss0 co0 t0].
  cbn in Ht, Hw. subst t0 hw0. cbn.
  set (del := Shell_NotifyIconW NIM_DELETE (nid_delete (hWnd st))).
  destruct (syscall del o0) as [rd o1]. cbn.
  prog. cbn.
  destruct (syscall (DestroyWindow (hWnd st)) o1) as [rw o2]. cbn.
  exists rp, rd, rw.
  destruct (r1 rw =? 0); destruct (r1 rp =? 0); cbn;
    do 2 eexists; (split; [reflexivity|]); cbn; tidy;
    repeat split; reflexivity.
Qed.

(** C9: the error that [removeTrayIcon] returns when the shell refuses the
    delete (as it does for an icon that is already gone) reaches none of
    its callers' control flow: the session-end case, the destroy case and
    the coordinator's shutdown each carry on from the state the removal
    left, with the same result as after a successful removal. *)
Theorem removeTrayIcon_error_discarded_by_callers
    (st : State OS) (hwnd w l : Z) (rest : Chan Signal) :
  hWnd st <> 0 ->
  (forall st0 : State OS,
      r1 (fst (syscall (Shell_NotifyIconW NIM_DELETE (nid_delete hwnd)) (os st0))) = 0 ->
      exists e, fst (removeTrayIcon hwnd st0) = Ret (Some e)) /\
  (exists st0 : State OS,
      trace st0 = trace st ++ [Println "WM_ENDSESSION received" []] /\
      wndProc hwnd WM_ENDSESSION w l st =
        (Ret 0, snd (removeTrayIcon hwnd st0))) /\
  (exists (rq : Reply) (st0 : State OS),
      trace st0 = trace st ++ [Println "WM_DESTROY received" [];
                               Sys (PostQuitMessage 0) rq;
                               Println "WM_ENDSESSION received" []] /\
      wndProc hwnd WM_DESTROY w l st =
        (Ret 0, snd (removeTrayIcon hwnd st0))) /\
  (exists st0 : State OS,
      coordinator_signal rest st =
        (Exited 0,
         snd (destroyWindow (hWnd st) (snd (removeTrayIcon (hWnd st) st0))))).
Proof.
  intros Hh. split; [|split; [|split]].
  - intros st0 H0. rewrite removeTrayIcon_eq. cbn. rewrite H0. cbn. eauto.
  - exists (set_trace (trace st ++ [Println "WM_ENDSESSION received" []]) st).
    destruct st as [o hi hw m cs ss co t]. split; [reflexivity|].
    prog. cbn. destruct (r1 (fst (syscall _ _)) =? 0); reflexivity.
  - destruct st as [o hi hw m cs ss co t].
    destruct (syscall (PostQuitMessage 0) o) as [rq o1] eqn:Eq.
    exists rq.
    exists (mkState o1 hi hw m cs ss co
              (t ++ [Println "WM_DESTROY received" [];
                     Sys (PostQuitMessage 0) rq;
                     Println "WM_ENDSESSION received" []])).
    split; [reflexivity|].
    prog. cbn. rewrite Eq. cbn. tidy.
    destruct (r1 (fst (syscall _ _)) =? 0); reflexivity.
  - destruct (coordinator_signal_exits st rest Hh) as (rp & st0 & _ & _ & E).
    exists st0. exact E.
Qed.

(** ** The command queue *)

Lemma count_println_app (text : string) (t u : list Event) :
  count_println text (t ++ u) = (count_println text t + count_println text u)%nat.
Proof.
  unfold count_println. rewrite filter_app, length_app. reflexivity.
Qed.




Lemma count_println_repeat (text : string) (k : nat) :
  count_println text (repeat (Println text []) k) = k.
Proof.
  induction k as [|k IH]; [reflexivity|].
  unfold count_println in *. cbn. rewrite String.eqb_refl. cbn. now rewrite IH.
Qed.


(** ** Who ends the process *)

(** Case analysis along a run: name replies, split on every test. *)
Ltac crunch :=
  repeat (cbn -[try_send try_recv];
          first
            [ sys
            | match goal with
              | |- context [if ?b then _ else _] => destruct b eqn:?
              | |- context [match try_send ?c ?v with _ => _ end] =>
                  destruct (try_send c v) eqn:?
              end ]).

(** The window procedure never ends the process, whatever the message and
    whatever the shell answers. *)
Lemma wndProc_never_exits (st : State OS) (hwnd msg w l c : Z) :
  fst (wndProc hwnd msg w l st) <> Exited c.
Proof.
  destruct st as [o hi hw m cs ss co t]. prog. crunch; discriminate.
Qed.

(** With the mutex free the window procedure returns, and leaves the mutex
    free and the window handle, the signal queue and the goroutine as they
    were. *)
Lemma wndProc_returns (st : State OS) (hwnd msg w l : Z) :
  mu st = false ->
  exists (z : Z) (st' : State OS),
    wndProc hwnd msg w l st = (Ret z, st') /\
    mu st' = false /\ hWnd st' = hWnd st /\
    signals st' = signals st /\ coordinator st' = coordinator st.
Proof.
  destruct st as [o hi hw m cs ss co t]. cbn [mu]. intros ->.
  prog. crunch; do 2 eexists; repeat split; reflexivity.
Qed.

(** The command case of the goroutine never ends the process. *)
Lemma coordinator_command_continues (st : State OS) (cmd : string)
    (rest : Chan string) :
  fst (coordinator_command cmd rest st) = Ret true.
Proof.
  destruct st. prog. cbn. destruct (String.eqb cmd "OpenUI"); reflexivity.
Qed.

(** The goroutine ends the process only in its signal case, only with a
    window, and only with status 0. *)
Lemma coordinator_iter_exit (st st' : State OS) (pick : bool) (c : Z) :
  coordinator_iter pick st = (Exited c, st') ->
  c = 0 /\ hWnd st <> 0 /\
  exists (sig : Signal) (rest : Chan Signal),
    try_recv (signals st) = Some (sig, rest) /\
    coordinator_signal rest st = (Exited 0, st').
Proof.
  intros E.
  assert (Hsig : forall sig rest,
             try_recv (signals st) = Some (sig, rest) ->
             coordinator_signal rest st = (Exited c, st') ->
             c = 0 /\ hWnd st <> 0 /\
             exists (sig : Signal) (rest : Chan Signal),
               try_recv (signals st) = Some (sig, rest) /\
               coordinator_signal rest st = (Exited 0, st')).
  { intros sig rest Hs Hx. destruct (Z.eq_dec (hWnd st) 0) as [Hz|Hnz].
    - destruct (coordinator_signal_returns st rest Hz) as (rp & s1 & Hr & _).
      rewrite Hr in Hx. discriminate.
    - destruct (coordinator_signal_exits st rest Hnz) as (rp & s0 & _ & _ & Hx').
      rewrite Hx' in Hx. injection Hx as <- <-.
      repeat split; auto. exists sig, rest. auto. }
  assert (Hcmd : forall cmd rest,
             coordinator_command cmd rest st <> (Exited c, st')).
  { intros cmd rest Hx.
    pose proof (coordinator_command_continues st cmd rest) as Hk.
    rewrite Hx in Hk. discriminate. }
  revert E. unfold coordinator_iter, bind, get.
  destruct (try_recv (commands st)) as [[cmd crest]|];
    destruct (try_recv (signals st)) as [[sig srest]|] eqn:Hs.
  - destruct pick; intros E; [elim (Hcmd _ _ E)|eauto].
  - intros E. elim (Hcmd _ _ E).
  - intros E. eauto.
  - discriminate.
Qed.

(** A step of the running process that ends it is a turn of the goroutine. *)
Lemma step_exit (st st' : State OS) (s : Step) (c : Z) :
  step s st = (Exited c, st') ->
  exists pick : bool,
    s = Coord pick /\ coordinator st = true /\
    coordinator_iter pick st = (Exited c, st').
Proof.
  destruct s as [hwnd msg w l|pick|sig]; cbn [step]; intros E.
  - exfalso. unfold bind in E.
    pose proof (wndProc_never_exits st hwnd msg w l c) as Hn.
    destruct (wndProc hwnd msg w l st) as [[z|c'|] s1]; cbn in *;
      try discriminate.
    injection E as -> ->. congruence.
  - exists pick. destruct (coordinator st); [|discriminate].
    destruct (coordinator_iter pick st) as [[[|]|c'|] s1]; try discriminate.
    injection E as -> ->. auto.
  - exfalso. revert E. prog.
    destruct (try_send (signals st) sig); discriminate.
Qed.

(** In the running process only the goroutine's signal case ends the
    process: a run that ends it does so at a [Coord] step, with a signal
    pending and a window, and the exit status is 0. *)
Lemma run_exit (steps : list Step) :
  forall (st st' : State OS) (c : Z),
    run steps st = (Exited c, st') ->
    c = 0 /\
    exists (pre post : list Step) (pick : bool) (st1 : State OS)
           (sig : Signal) (rest : Chan Signal),
      steps = pre ++ Coord pick :: post /\
      run pre st = (Ret tt, st1) /\
      coordinator st1 = true /\ hWnd st1 <> 0 /\
      try_recv (signals st1) = Some (sig, rest) /\
      coordinator_iter pick st1 = (Exited 0, st') /\
      coordinator_signal rest st1 = (Exited 0, st').
Proof.
  induction steps as [|s steps IH]; intros st st' c E.
  - discriminate.
  - cbn [run] in E. unfold bind in E.
    destruct (step s st) as [[[]|c1|] s1] eqn:Es; try discriminate.
    + destruct (IH _ _ _ E)
        as (-> & pre & post & pick & st1 & sig & rest & -> & Hr & H).
      split; [reflexivity|].
      exists (s :: pre), post, pick, st1, sig, rest.
      split; [reflexivity|]. split; [|exact H].
      cbn [run]. unfold bind. rewrite Es. exact Hr.
    + injection E as -> ->.
      destruct (step_exit _ _ _ _ Es) as (pick & -> & Hco & Hi).
      destruct (coordinator_iter_exit _ _ _ _ Hi)
        as (-> & Hh & sig & rest & Hs & Hx).
      split; [reflexivity|].
      exists [], steps, pick, st, sig, rest.
      repeat split; auto.
Qed.

(** A turn of the goroutine does not touch the mutex. *)
Lemma coordinator_iter_mu (st : State OS) (pick : bool) :
  mu st = false -> mu (snd (coordinator_iter pick st)) = false.
Proof.
  destruct st as [o hi hw m cs ss co t]. cbn [mu]. intros ->.
  unfold coordinator_iter, bind, get. cbn [commands signals].
  destruct (try_recv cs) as [[cmd crest]|];
    destruct (try_recv ss) as [[sig srest]|];
    try destruct pick; prog; crunch; reflexivity.
Qed.

(** The mutex is free between the steps of a run, so no step of a run
    parks the message pump.  (An invocation of [wndProc] from inside the
    tracking call is no step of a run; it finds the mutex held.) *)
Lemma run_keeps_mutex_free (steps : list Step) :
  forall (st st' : State OS) (out : Outcome unit),
    mu st = false ->
    run steps st = (out, st') ->
    mu st' = false /\ out <> Blocked.
Proof.
  induction steps as [|s steps IH]; intros st st' out Hm E.
  - injection E as <- <-. split; [assumption|discriminate].
  - cbn [run] in E. unfold bind in E.
    destruct (step s st) as [o1 s1] eqn:Es.
    assert (H1 : mu s1 = false /\ o1 <> Blocked).
    { destruct s as [hwnd msg w l|pick|sig]; cbn [step] in Es.
      - destruct (wndProc_returns st hwnd msg w l Hm)
          as (z & s2 & Ew & Hm2 & _).
        unfold bind in Es. rewrite Ew in Es. cbn in Es.
        injection Es as <- <-. split; [assumption|discriminate].
      - destruct (coordinator st).
        + pose proof (coordinator_iter_mu st pick Hm) as Hi.
          destruct (coordinator_iter pick st) as [[[|]|c1|] s2];
            injection Es as <- <-; cbn in *;
            (split; [try assumption|discriminate]).
        + injection Es as <- <-. split; [assumption|discriminate].
      - revert Es. prog. destruct (try_send (signals st) sig);
          intros Es; injection Es as <- <-;
          (split; [destruct st; assumption|discriminate]). }
    destruct H1 as [Hm1 Hb1].
    destruct o1 as [[]|c1|].
    + eapply IH; eassumption.
    + injection E as <- <-. split; [assumption|discriminate].
    + congruence.
Qed.

(** ** Start-up *)

Ltac boot :=
  unfold main_startup, addTrayIcon, showNotification, createWindowEx,
    registerClass, loadIcon, loadCursor, nid_with_flags;
  prog.

(** Settle a membership hypothesis about a modify request in a concrete
    trace: entries that are no modify request are dismissed, a modify
    request that succeeded contradicts the zero reply. *)
Ltac pick_modify Hin Hr :=
  cbn in Hin; unfold NIM_ADD, NIM_MODIFY in Hin;
  repeat
    (destruct Hin as [Hin|Hin];
     [ try discriminate Hin;
       try (injection Hin as <- <-;
            try (exfalso;
                 match goal with
                 | H : (r1 ?r =? 0) = false |- _ =>
                     apply Z.eqb_neq in H; apply H; exact Hr
                 end))
     | ]);
  try contradiction.

(** What [main] does before it enters the message loop.  Either it
    returns, with a window, the two empty queues and the goroutine started,
    and then no modify request was refused; or it ends the process through
    [log.Fatal], with status 1, the fatal line last in the trace, and the
    goroutine never started.  In the second case a refused modify request
    is the call right before the fatal line, which names the function that
    made it. *)
Lemma main_startup_cases (st st' : State OS) (out : Outcome unit) :
  main_startup st = (out, st') ->
  exists t : list Event,
    trace st' = trace st ++ t /\
    ((out = Ret tt /\
      hWnd st' <> 0 /\
      commands st' = Some (make_chan COMMANDS_CAP) /\
      signals st' = Some (make_chan SIGNALS_CAP) /\
      coordinator st' = true /\
      mu st' = mu st /\
      forall (nid : notifyIconData) (r : Reply),
        In (Sys (Shell_NotifyIconW NIM_MODIFY nid) r) t -> r1 r <> 0)
     \/
     (out = Exited 1 /\
      coordinator st' = coordinator st /\
      commands st' = commands st /\
      exists (t0 : list Event) (text : string) (args : list Arg),
        t = t0 ++ [LogFatal text args] /\
        forall (nid : notifyIconData) (r : Reply),
          In (Sys (Shell_NotifyIconW NIM_MODIFY nid) r) t -> r1 r = 0 ->
          exists (t1 : list Event) (format : string),
            t0 = t1 ++ [Sys (Shell_NotifyIconW NIM_MODIFY nid) r] /\
            args = [AErr (Errorf format (Errno (lastErr r)))] /\
            ((text = "addTrayIcon: " /\
              format = "shell_notifyicon modify failed: %w" /\
              UFlags nid = NIF_STATE)
             \/
             (text = "showNotification: " /\
              format = "Shell_NotifyIcon failed: %w" /\
              UFlags nid = NIF_INFO)))).
Proof.
  destruct st as [o hi hw m cs ss co t]. boot.
  crunch; intros E; injection E as <- <-; cbn; tidy;
    eexists; (split; [reflexivity|]).
  all: first
    [ left; (split; [reflexivity|]);
      (split; [apply Z.eqb_neq; assumption|]);
      do 4 (split; [reflexivity|]);
      intros nid r' Hin Hr; pick_modify Hin Hr
    | right; do 3 (split; [reflexivity|]);
      match goal with
      | |- exists t0 text args, ?l = _ /\ _ =>
          exists (removelast l); cbn [removelast]; do 2 eexists;
          (split; [reflexivity|])
      end;
      intros nid r' Hin Hr; pick_modify Hin Hr;
      match goal with
      | |- exists t1 format, ?l = _ /\ _ =>
          exists (removelast l); cbn [removelast]; eexists;
          (split; [reflexivity|]); (split; [reflexivity|]);
          first [ left; repeat split; reflexivity
                | right; repeat split; reflexivity ]
      end ].
Qed.

(** When start-up ends the process it does so through [log.Fatal]: the
    status is 1, the fatal line is the last thing in the trace, and the
    goroutine was never started. *)
Lemma main_startup_exit (st st' : State OS) (c : Z) :
  main_startup st = (Exited c, st') ->
  c = 1 /\ coordinator st' = coordinator st /\
  exists (t0 : list Event) (text : string) (args : list Arg),
    trace st' = trace st ++ t0 ++ [LogFatal text args].
Proof.
  intros E. destruct (main_startup_cases _ _ _ E) as (t & Ht & [H|H]).
  - destruct H as (Hx & _). discriminate.
  - destruct H as (Hx & Hco & _ & t0 & text & args & -> & _).
    injection Hx as ->. repeat split; auto.
    exists t0, text, args. exact Ht.
Qed.

(** Start-up that returns leaves a window, an empty command queue of
    capacity [COMMANDS_CAP], an empty signal queue, the goroutine started
    and the mutex as it was. *)
Lemma main_startup_ret (st st' : State OS) :
  main_startup st = (Ret tt, st') ->
  hWnd st' <> 0 /\
  commands st' = Some (make_chan COMMANDS_CAP) /\
  signals st' = Some (make_chan SIGNALS_CAP) /\
  coordinator st' = true /\ mu st' = mu st.
Proof.
  intros E. destruct (main_startup_cases _ _ _ E) as (t & Ht & [H|H]).
  - destruct H as (_ & Hh & Hc & Hs & Hco & Hm & _). auto.
  - destruct H as (Hx & _). discriminate.
Qed.

Lemma main_startup_never_parks (st : State OS) :
  fst (main_startup st) <> Blocked.
Proof.
  destruct (main_startup st) as [out st'] eqn:E.
  destruct (main_startup_cases _ _ _ E) as (t & _ & [(-> & _)|(-> & _)]);
    discriminate.
Qed.

(** C3 (as the code has it): a refused tray-icon modify request, be it the state
    modify of [addTrayIcon] or the balloon modify of [showNotification], is
    fatal: the error goes back to [main], which prints it with [log.Fatal]
    right after the refused call and ends the process with status 1; the
    goroutine is never started. *)
Theorem startup_modify_failure_is_fatal
    (st st' : State OS) (out : Outcome unit) (t : list Event)
    (nid : notifyIconData) (r : Reply) :
  main_startup st = (out, st') ->
  trace st' = trace st ++ t ->
  In (Sys (Shell_NotifyIconW NIM_MODIFY nid) r) t ->
  r1 r = 0 ->
  out = Exited 1 /\ coordinator st' = coordinator st /\
  exists (t1 : list Event) (text format : string),
    t = t1 ++ [Sys (Shell_NotifyIconW NIM_MODIFY nid) r;
               LogFatal text [AErr (Errorf format (Errno (lastErr r)))]] /\
    ((text = "addTrayIcon: " /\
      format = "shell_notifyicon modify failed: %w" /\
      UFlags nid = NIF_STATE)
     \/
     (text = "showNotification: " /\
      format = "Shell_NotifyIcon failed: %w" /\
      UFlags nid = NIF_INFO)).
Proof.
  intros E Ht Hin Hr.
  destruct (main_startup_cases _ _ _ E) as (t' & Ht' & H).
  rewrite Ht in Ht'. apply app_inv_head in Ht'. subst t'.
  destruct H as [H|H].
  - destruct H as (_ & _ & _ & _ & _ & _ & Hok).
    elim (Hok nid r Hin Hr).
  - destruct H as (-> & Hco & _ & t0 & text & args & -> & Hmod).
    destruct (Hmod nid r Hin Hr) as (t1 & format & -> & -> & Hwho).
    repeat split; auto.
    exists t1, text, format. rewrite <- app_assoc. split; [reflexivity|exact Hwho].
Qed.

(** Once the process runs, nothing asks the shell to modify the icon. *)
Lemma step_makes_no_modify (s : Step) (st st' : State OS) (out : Outcome unit) :
  step s st = (out, st') ->
  exists t : list Event,
    trace st' = trace st ++ t /\
    forall (nid : notifyIconData) (r : Reply),
      ~ In (Sys (Shell_NotifyIconW NIM_MODIFY nid) r) t.
Proof.
  destruct st as [o hi hw m cs ss co t].
  destruct s as [hwnd msg w l|pick|sig]; cbn [step].
  - prog. crunch; intros E; injection E as <- <-; cbn; tidy;
      try (exists []; rewrite app_nil_r; split; [reflexivity|];
           intros nid r' Hin; exact Hin);
      eexists; (split; [reflexivity|]);
      intros nid r' Hin; cbn in Hin; unfold NIM_DELETE, NIM_MODIFY in Hin;
      repeat (destruct Hin as [Hin|Hin]; [discriminate Hin|]);
      exact Hin.
  - destruct co.
    + unfold coordinator_iter, bind, get. cbn [commands signals].
      destruct (try_recv cs) as [[cmd crest]|];
        destruct (try_recv ss) as [[sg srest]|];
        try destruct pick; prog; crunch;
        intros E; injection E as <- <-; cbn; tidy;
        try (exists []; rewrite app_nil_r; split; [reflexivity|];
             intros nid r' Hin; exact Hin);
        eexists; (split; [reflexivity|]);
        intros nid r' Hin; cbn in Hin; unfold NIM_DELETE, NIM_MODIFY in Hin;
        repeat (destruct Hin as [Hin|Hin]; [discriminate Hin|]);
        exact Hin.
    + intros E; injection E as <- <-. exists []. cbn. rewrite app_nil_r.
      split; [reflexivity|]. intros nid r' Hin; exact Hin.
  - prog. cbn [signals]. destruct (try_send ss sig);
      intros E; injection E as <- <-; exists []; cbn; rewrite app_nil_r;
      (split; [reflexivity|]); intros nid r' Hin; exact Hin.
Qed.

(** C7 (as the code has it): once the process runs, the coordinator is the only
    code path that ends it.  The window procedure never does, whatever the
    message; the "exit" command only posts a close request to the window.
    The coordinator does so only in its signal case, with a window, with
    status 0; hence a run of the process that ends it ends at a coordinator
    turn.  During start-up [main] itself ends the process, with status 1,
    through [log.Fatal]. *)
Theorem process_exit_paths :
  (forall (st : State OS) (hwnd msg w l c : Z),
      fst (wndProc hwnd msg w l st) <> Exited c) /\
  (forall (st : State OS) (hwnd w l : Z),
      int32 w = IDM_EXIT ->
      exists (rp : Reply) (st' : State OS),
        wndProc hwnd WM_COMMAND w l st = (Ret 0, st') /\
        trace st' = trace st ++
                      [LogPrintln "Exit clicked" [];
                       Sys (PostMessageW hwnd WM_CLOSE 0 0) rp]) /\
  (forall (st st' : State OS) (pick : bool) (c : Z),
      coordinator_iter pick st = (Exited c, st') ->
      c = 0 /\ hWnd st <> 0 /\
      exists (sig : Signal) (rest : Chan Signal),
        try_recv (signals st) = Some (sig, rest) /\
        coordinator_signal rest st = (Exited 0, st')) /\
  (forall (steps : list Step) (st st' : State OS) (c : Z),
      run steps st = (Exited c, st') ->
      c = 0 /\
      exists (pre post : list Step) (pick : bool) (st1 : State OS),
        steps = pre ++ Coord pick :: post /\
        run pre st = (Ret tt, st1) /\
        coordinator_iter pick st1 = (Exited 0, st')) /\
  (forall (st st' : State OS) (c : Z),
      main_startup st = (Exited c, st') ->
      c = 1 /\ coordinator st' = coordinator st /\
      exists (t0 : list Event) (text : string) (args : list Arg),
        trace st' = trace st ++ t0 ++ [LogFatal text args]).
Proof.
  split; [|split; [|split; [|split]]].
  - exact wndProc_never_exits.
  - intros st hwnd w l Hw. rewrite (wndProc_exit_eq st hwnd w l Hw).
    do 2 eexists. split; [reflexivity|]. destruct st; reflexivity.
  - intros st st' pick c. apply coordinator_iter_exit.
  - intros steps st st' c E.
    destruct (run_exit steps st st' c E)
      as (-> & pre & post & pick & st1 & sig & rest & Hs & Hr & _ & _ & _ & Hi & _).
    split; [reflexivity|]. exists pre, post, pick, st1. auto.
  - exact main_startup_exit.
Qed.

(** ** Further properties

    The default and close branches of the window procedure, the
    conversions, the icon requests as a family, start-up as a whole, and
    the process while it runs. *)

Arguments copy_utf16 : simpl never.
Arguments added : simpl never.

(** ** More of the window procedure *)

(** X1: a message that is none of the five the window procedure handles
    goes to [DefWindowProc] with the same four arguments, and the reply of
    [DefWindowProc] is the result. *)
Theorem wndProc_default_delegates (st : State OS) (hwnd msg w l : Z) :
  msg <> WM_DESTROY -> msg <> WM_ENDSESSION -> msg <> WM_TRAYICON ->
  msg <> WM_COMMAND -> msg <> WM_CLOSE ->
  let def := DefWindowProcW hwnd msg w l in
  wndProc hwnd msg w l st =
    (Ret (r1 (fst (syscall def (os st)))),
     set_trace (trace st ++ [Printf "DefWindowProc: %d\n" [AInt msg];
                             Sys def (fst (syscall def (os st)))])
       (set_os (snd (syscall def (os st))) st)).
Proof.
  intros H1 H2 H3 H4 H5. apply Z.eqb_neq in H1, H2, H3, H4, H5.
  unfold wndProc. rewrite H1, H2, H3, H4, H5.
  destruct st. prog. cbn. tidy. reflexivity.
Qed.

(** X2: each of the five handled messages is answered with zero, whatever
    the parameters and whatever the shell replies to the calls made on the
    way. *)
Theorem wndProc_handled_returns_zero (st : State OS) (hwnd msg w l : Z) :
  mu st = false ->
  msg = WM_DESTROY \/ msg = WM_ENDSESSION \/ msg = WM_TRAYICON \/
  msg = WM_COMMAND \/ msg = WM_CLOSE ->
  fst (wndProc hwnd msg w l st) = Ret 0.
Proof.
  destruct st as [o hi hw m cs ss co t]. cbn [mu]. intros -> Hm.
  destruct Hm as [-> | [-> | [-> | [-> | ->]]]]; prog; crunch; reflexivity.
Qed.

(** X3: a close notification destroys the window held in the global
    [hWnd], not the window the notification was sent to, and the result of
    the destruction is not looked at. *)
Theorem wndProc_close_destroys_global_window (st : State OS) (hwnd w l : Z) :
  let destroy := DestroyWindow (hWnd st) in
  wndProc hwnd WM_CLOSE w l st =
    (Ret 0,
     set_trace (trace st ++ [Println "WM_CLOSE received" [];
                             Sys destroy (fst (syscall destroy (os st)))])
       (set_os (snd (syscall destroy (os st))) st)).
Proof.
  destruct st as [o hi hw m cs ss co t]. prog. cbn.
  destruct (r1 (fst (syscall _ _)) =? 0); cbn; tidy; reflexivity.
Qed.

Lemma int32_add_word (z k : Z) : int32 (z + k * 2 ^ 32) = int32 z.
Proof.
  unfold int32. rewrite Z_mod_plus_full. reflexivity.
Qed.

(** X4: the command switch reads the low 32 bits of [wParam] only: adding
    any multiple of 2^32 changes nothing. *)
Theorem wndProc_command_reads_low_word (st : State OS) (hwnd w k l : Z) :
  wndProc hwnd WM_COMMAND (w + k * 2 ^ 32) l st =
  wndProc hwnd WM_COMMAND w l st.
Proof.
  rewrite !wndProc_command_eq. unfold wndProc_command.
  rewrite int32_add_word. reflexivity.
Qed.

(** A command that is neither of the two menu identifiers: one line of
    output, nothing else. *)
Lemma wndProc_unknown_command (st : State OS) (hwnd w l : Z) :
  int32 w <> IDM_OPEN_UI -> int32 w <> IDM_EXIT ->
  wndProc hwnd WM_COMMAND w l st =
    (Ret 0, set_trace (trace st ++ [Println "Unknown command received" []]) st).
Proof.
  intros H1 H2. apply Z.eqb_neq in H1, H2.
  rewrite wndProc_command_eq. unfold wndProc_command. rewrite H1, H2.
  destruct st. reflexivity.
Qed.

(** X5: the switch compares the whole low 32 bits, notification code
    included: a menu identifier that arrives with a non-zero high word (an
    accelerator, a control) is an unknown command; it is neither queued nor
    turned into a close request. *)
Theorem wndProc_command_with_code_is_unknown
    (st : State OS) (hwnd id code l : Z) :
  0 <= id < 2 ^ 16 -> 0 < code < 2 ^ 16 ->
  wndProc hwnd WM_COMMAND (id + code * 2 ^ 16) l st =
    (Ret 0, set_trace (trace st ++ [Println "Unknown command received" []]) st).
Proof.
  intros Hid Hcode.
  assert (E : int32 (id + code * 2 ^ 16) >= 2 ^ 16 \/
              int32 (id + code * 2 ^ 16) < 0).
  { unfold int32. rewrite Z.mod_small by lia.
    destruct (Z.ltb_spec (id + code * 2 ^ 16) (2 ^ 31)); lia. }
  apply wndProc_unknown_command; unfold IDM_OPEN_UI, IDM_EXIT; lia.
Qed.

(** ** Conversions *)

(** X6: an [int] in the 32-bit range that is passed as a [uintptr] (the
    position and size of [createWindowEx], the cursor coordinates of
    [showMenu]) is read back unchanged by a callee that takes the low 32
    bits as a signed number; negative values survive the trip. *)
Theorem int32_uintptr_round_trip (z : Z) :
  - 2 ^ 31 <= z < 2 ^ 31 ->
  0 <= uintptr z < 2 ^ 64 /\ int32 (uintptr z) = z.
Proof.
  intros H. unfold uintptr, int32. split; [apply Z.mod_pos_bound; lia|].
  destruct (Z.neg_nonneg_cases z) as [Hn|Hp].
  - assert (E1 : z mod 2 ^ 64 = z + 2 ^ 64)
      by (symmetry; apply Z.mod_unique with (q := -1); lia).
    assert (E2 : (z + 2 ^ 64) mod 2 ^ 32 = z + 2 ^ 32)
      by (symmetry; apply Z.mod_unique with (q := 2 ^ 32 - 1); lia).
    rewrite E1, E2.
    destruct (Z.ltb_spec (z + 2 ^ 32) (2 ^ 31)); lia.
  - rewrite (Z.mod_small z (2 ^ 64)) by lia.
    rewrite Z.mod_small by lia.
    destruct (Z.ltb_spec z (2 ^ 31)); lia.
Qed.

(** ** More of the tray icon and the menu *)

(** The entries added by a computation that only appends. *)
Lemma added_app (st st' : State OS) (t : list Event) :
  trace st' = trace st ++ t -> added st st' = t.
Proof.
  intros E. unfold added. rewrite E, skipn_app, Nat.sub_diag, skipn_all.
  reflexivity.
Qed.

(** Bring a membership in [added] down to a list of entries. *)
Ltac in_added Hin :=
  match type of Hin with
  | In _ (added ?st ?st') =>
      erewrite (added_app st st') in Hin by (cbn; tidy; reflexivity);
      cbn in Hin
  end.

(** The shape of the requests of the three icon functions. *)
Lemma icon_request_shape
    (st : State OS) (hwnd : Z) (title message : string)
    (m : Z) (nid : notifyIconData) (r : Reply) :
  In (Sys (Shell_NotifyIconW m nid) r) (added st (snd (addTrayIcon hwnd st))) \/
  In (Sys (Shell_NotifyIconW m nid) r)
     (added st (snd (showNotification hwnd title message st))) \/
  In (Sys (Shell_NotifyIconW m nid) r) (added st (snd (removeTrayIcon hwnd st))) ->
  HWnd nid = hwnd /\ UID nid = 1 /\
  (m = NIM_ADD ->
   UCallbackMessage nid = WM_TRAYICON /\ Z.testbit (UFlags nid) 0 = true).
Proof.
  destruct st as [o hi hw mx cs ss co t].
  intros [Hin|[Hin|Hin]]; revert Hin;
    boot; unfold UTF16FromString; crunch; intros Hin; in_added Hin;
    repeat (destruct Hin as [Hin|Hin];
            [ try discriminate Hin;
              try (injection Hin as <- <- <-;
                   split; [reflexivity|]; split; [reflexivity|];
                   intros Hm;
                   first [ vm_compute in Hm; discriminate Hm
                         | split; reflexivity ])
            | ]);
    try contradiction.
Qed.

(** X7: every request that [addTrayIcon], [showNotification] and
    [removeTrayIcon] send to the shell names the same icon, identifier 1 of
    the window they were called for; and the icon is added with the
    callback message that the window procedure routes to its tray switch,
    with the flag that turns the callback on. *)
Theorem icon_requests_name_one_icon
    (st : State OS) (hwnd : Z) (title message : string)
    (m : Z) (nid : notifyIconData) (r : Reply) :
  In (Sys (Shell_NotifyIconW m nid) r) (added st (snd (addTrayIcon hwnd st))) \/
  In (Sys (Shell_NotifyIconW m nid) r)
     (added st (snd (showNotification hwnd title message st))) \/
  In (Sys (Shell_NotifyIconW m nid) r) (added st (snd (removeTrayIcon hwnd st))) ->
  HWnd nid = hwnd /\ UID nid = 1 /\
  (m = NIM_ADD ->
   UCallbackMessage nid = WM_TRAYICON /\
   Z.testbit (UFlags nid) 0 = true /\
   forall (st2 : State OS) (h w l : Z),
     wndProc h (UCallbackMessage nid) w l st2 = wndProc_trayicon l st2).
Proof.
  intros Hin.
  destruct (icon_request_shape st hwnd title message m nid r Hin)
    as (Hh & Hu & Hadd).
  repeat split; auto; try (apply Hadd; assumption).
  intros st2 h w l. destruct (Hadd H) as [-> _]. reflexivity.
Qed.

(** X8: a title or a message that holds a NUL makes [showNotification]
    fail before anything is sent to the shell: the icon resource has been
    loaded, nothing else is called, and the error names the string that
    was refused, the title first. *)
Theorem showNotification_rejects_nul
    (st : State OS) (hwnd : Z) (title message : string) :
  has_nul title || has_nul message = true ->
  exists (t : list Event) (st' : State OS),
    showNotification hwnd title message st =
      (Ret (Some (Errorf (if has_nul title
                          then "failed to convert title to UTF-16: %w"
                          else "failed to convert message to UTF-16: %w")
                    EINVAL)),
       st') /\
    trace st' = trace st ++ t /\
    calls_of t = [LoadIconW 0 (MAKEINTRESOURCE (uint16 IDI_APPLICATION))].
Proof.
  destruct st as [o hi hw mx cs ss co t]. intros H.
  unfold showNotification, loadIcon, UTF16FromString. prog. cbn. sys.
  destruct (has_nul title); [|cbn in H; rewrite H];
    destruct (r1 r =? 0); cbn; do 2 eexists;
    (split; [reflexivity|]); cbn; tidy; split; reflexivity.
Qed.

(** X9: [showMenu] takes the mutex after it has created and filled the
    menu.  Entered while the mutex is held it parks at [mu.Lock()]: the
    menu exists, and neither the foreground call nor the tracking call nor
    the destroy call has been made. *)
Theorem showMenu_parks_holding_a_menu (st : State OS) :
  mu st = true ->
  r1 (fst (syscall CreatePopupMenu (os st))) <> 0 ->
  let hMenu := r1 (fst (syscall CreatePopupMenu (os st))) in
  exists (t : list Event) (st' : State OS),
    showMenu st = (Blocked, st') /\
    trace st' = trace st ++ t /\
    calls_of t =
      [CreatePopupMenu;
       AppendMenuW hMenu MF_STRING IDM_OPEN_UI (Some "Open UI");
       AppendMenuW hMenu MF_SEPARATOR 0 None;
       AppendMenuW hMenu MF_STRING IDM_EXIT (Some "Exit");
       GetCursorPos].
Proof.
  destruct st as [o hi hw m cs ss co t]. cbn [mu os hWnd trace].
  intros Hm Hc. subst m. revert Hc.
  prog. cbn.
  destruct (syscall CreatePopupMenu o) as [rc o1]. cbn.
  intros Hc. apply Z.eqb_neq in Hc. rewrite Hc. cbn.
  go. do 2 eexists. (split; [reflexivity|]). cbn. tidy.
  split; reflexivity.
Qed.

(** X10: the menu and the command switch agree: every selectable entry
    that [showMenu] appends carries an identifier that the command switch
    knows; handing it to the window procedure never ends in the
    unknown-command case. *)
Theorem menu_entries_are_known_commands
    (st : State OS) (hMenu flags id : Z) (text : option string) (r : Reply) :
  In (Sys (AppendMenuW hMenu flags id text) r) (added st (snd (showMenu st))) ->
  text <> None ->
  (id = IDM_OPEN_UI \/ id = IDM_EXIT) /\
  forall (st2 : State OS) (hwnd l : Z),
    ~ In (Println "Unknown command received" [])
        (added st2 (snd (wndProc hwnd WM_COMMAND id l st2))).
Proof.
  destruct st as [o hi hw m cs ss co t]. intros Hin Htext.
  assert (Hid : id = IDM_OPEN_UI \/ id = IDM_EXIT).
  { revert Hin. prog. crunch; intros Hin; in_added Hin;
      repeat (destruct Hin as [Hin|Hin];
              [ try discriminate Hin;
                try (injection Hin as <- <- <- <- <-;
                     first [ left; reflexivity | right; reflexivity
                           | elim Htext; reflexivity ])
              | ]);
      try contradiction. }
  split; [exact Hid|].
  intros st2 hwnd l. destruct st2 as [o2 hi2 hw2 m2 cs2 ss2 co2 t2].
  clear Hin.
  destruct Hid as [-> | ->]; rewrite wndProc_command_eq;
    unfold wndProc_command;
    [ change (int32 IDM_OPEN_UI) with IDM_OPEN_UI
    | change (int32 IDM_EXIT) with IDM_EXIT ];
    prog; crunch; intros Hn; in_added Hn;
    repeat (destruct Hn as [Hn|Hn]; [discriminate Hn|]);
    exact Hn.
Qed.

(** X11: the "Exit" entry, step by step.  The command posts a close
    request; the close notification destroys the window; the destroy
    notification posts the quit request and deletes the icon.  These four
    calls are all that happens, and the process has not been ended: that
    is left to the return of the message loop. *)
Theorem exit_entry_sequence (st : State OS) (hwnd l1 w2 l2 w3 l3 : Z) :
  exists (t : list Event) (st' : State OS),
    run [Dispatch hwnd WM_COMMAND IDM_EXIT l1;
         Dispatch hwnd WM_CLOSE w2 l2;
         Dispatch hwnd WM_DESTROY w3 l3] st = (Ret tt, st') /\
    trace st' = trace st ++ t /\
    calls_of t =
      [PostMessageW hwnd WM_CLOSE 0 0;
       DestroyWindow (hWnd st);
       PostQuitMessage 0;
       Shell_NotifyIconW NIM_DELETE (nid_delete hwnd)] /\
    hWnd st' = hWnd st /\ commands st' = commands st /\
    coordinator st' = coordinator st.
Proof.
  destruct st as [o hi hw m cs ss co t].
  cbn [run step]. prog. change (int32 IDM_EXIT) with IDM_EXIT. crunch;
    do 2 eexists; (split; [reflexivity|]); cbn; tidy;
    repeat split; reflexivity.
Qed.

(** ** Start-up as a whole *)

Lemma in_calls_of (c : Call) (r : Reply) (t : list Event) :
  In (Sys c r) t -> In c (calls_of t).
Proof.
  induction t as [|e t IH]; [contradiction|].
  intros [->|H]; [left; reflexivity|].
  destruct e; cbn; auto.
Qed.

Lemma in_icon_requests (m : Z) (nid : notifyIconData) (r : Reply)
    (t : list Event) :
  In (Sys (Shell_NotifyIconW m nid) r) t -> In (m, nid) (icon_requests t).
Proof.
  intros H. unfold icon_requests. apply in_flat_map.
  exists (Sys (Shell_NotifyIconW m nid) r). split; [exact H|left; reflexivity].
Qed.

Lemma in_shown_windows (h cmd : Z) (r : Reply) (t : list Event) :
  In (Sys (ShowWindow h cmd) r) t -> In (h, cmd) (shown_windows t).
Proof.
  intros H. unfold shown_windows. apply in_flat_map.
  exists (Sys (ShowWindow h cmd) r). split; [exact H|left; reflexivity].
Qed.

(** Start-up at a glance: the procedures it calls are an initial part of
    [startup_procs], the whole of it when start-up returns; it returns or
    it ends the process with status 1; the window it hides and the owner
    of every icon request is the window it has just created and stored in
    [hWnd]. *)
Lemma main_startup_survey (st st' : State OS) (out : Outcome unit) :
  main_startup st = (out, st') ->
  (exists rest : list Proc,
      map proc_of (calls_of (added st st')) ++ rest = startup_procs /\
      (out = Ret tt -> rest = [])) /\
  (out = Ret tt \/ out = Exited 1) /\
  Forall (fun mn => HWnd (snd mn) = hWnd st' /\ UID (snd mn) = 1 /\
                    hWnd st' <> 0)
    (icon_requests (added st st')) /\
  Forall (fun hc => fst hc = hWnd st' /\ snd hc = SW_HIDE /\ hWnd st' <> 0)
    (shown_windows (added st st')).
Proof.
  destruct st as [o hi hw m cs ss co t]. boot.
  crunch; intros E; injection E as <- <-;
    erewrite added_app by (cbn; tidy; reflexivity);
    cbn;
    (split;
     [ eexists; (split; [reflexivity|]);
       intros H; first [reflexivity | discriminate H] |]);
    (split; [first [left; reflexivity | right; reflexivity]|]);
    split; repeat constructor; apply Z.eqb_neq; assumption.
Qed.

(** X12: start-up makes its calls in one fixed order (module handle, icon
    and cursor resources, class, window, hide, icon resource, icon add,
    icon state, icon resource, balloon) and stops at the first fatal
    failure: the calls made are always an initial part of this list; a
    start-up that returns has made them all, and one that does not return
    has ended the process with status 1. *)
Theorem startup_calls_in_program_order
    (st st' : State OS) (out : Outcome unit) :
  main_startup st = (out, st') ->
  exists rest : list Proc,
    map proc_of (calls_of (added st st')) ++ rest =
      [PGetModuleHandleW; PLoadIconW; PLoadCursorW; PRegisterClassW;
       PCreateWindowExW; PShowWindow;
       PLoadIconW; PShell_NotifyIconW NIM_ADD; PShell_NotifyIconW NIM_MODIFY;
       PLoadIconW; PShell_NotifyIconW NIM_MODIFY] /\
    (out = Ret tt -> rest = []) /\
    (out <> Ret tt -> out = Exited 1).
Proof.
  intros E.
  destruct (main_startup_survey _ _ _ E) as ((rest & Hp & Hr) & Ho & _).
  exists rest. repeat split; auto.
  intros Hn. destruct Ho; [contradiction|assumption].
Qed.

(** X13: start-up gives nothing back.  Whatever fails, it never destroys
    the window it created, never deletes the icon it added and never posts
    a quit request: a start-up that ends in [log.Fatal] leaves both to the
    host. *)
Theorem startup_never_releases
    (st st' : State OS) (out : Outcome unit) (c : Call) (r : Reply) :
  main_startup st = (out, st') ->
  In (Sys c r) (added st st') ->
  is_release (proc_of c) = false.
Proof.
  intros E Hin.
  destruct (main_startup_survey _ _ _ E) as ((rest & Hp & _) & _).
  apply in_calls_of in Hin. apply (in_map proc_of) in Hin.
  assert (Hs : In (proc_of c) startup_procs)
    by (rewrite <- Hp; apply in_or_app; left; exact Hin).
  unfold startup_procs in Hs. cbn in Hs.
  repeat (destruct Hs as [<-|Hs]; [reflexivity|]). contradiction.
Qed.

(** X18: the icon belongs to the hidden window.  Every icon request of
    start-up names, as the icon's owner, the window that [createWindowEx]
    has just returned and [main] has stored in [hWnd]; that window is the
    one start-up hides; and none of this happens without a window. *)
Theorem startup_icon_belongs_to_window
    (st st' : State OS) (out : Outcome unit) :
  main_startup st = (out, st') ->
  (forall (m : Z) (nid : notifyIconData) (r : Reply),
      In (Sys (Shell_NotifyIconW m nid) r) (added st st') ->
      HWnd nid = hWnd st' /\ UID nid = 1 /\ hWnd st' <> 0) /\
  (forall (h cmd : Z) (r : Reply),
      In (Sys (ShowWindow h cmd) r) (added st st') ->
      h = hWnd st' /\ cmd = SW_HIDE /\ hWnd st' <> 0).
Proof.
  intros E. destruct (main_startup_survey _ _ _ E) as (_ & _ & Hi & Hs).
  rewrite Forall_forall in Hi, Hs. split.
  - intros m nid r Hin. apply (Hi (m, nid)). eapply in_icon_requests; eauto.
  - intros h cmd r Hin. apply (Hs (h, cmd)). eapply in_shown_windows; eauto.
Qed.

(** ** The running process: what every step keeps *)

(** [started], spelled out. *)
Lemma started_inv (st : State OS) :
  started st = true ->
  hWnd st <> 0 /\ coordinator st = true /\ mu st = false /\
  (exists q : list string,
      commands st = Some (mkChan COMMANDS_CAP q) /\
      (List.length q <= COMMANDS_CAP)%nat /\
      forallb (String.eqb "OpenUI") q = true) /\
  (exists p : list Signal,
      signals st = Some (mkChan SIGNALS_CAP p) /\
      (List.length p <= SIGNALS_CAP)%nat).
Proof.
  unfold started. intros H.
  repeat (apply andb_true_iff in H; destruct H as [H ?]).
  destruct (commands st) as [[c q]|]; [|discriminate].
  destruct (signals st) as [[d p]|]; [|discriminate].
  cbn [cap buf] in *.
  repeat match goal with
         | H : _ && _ = true |- _ => apply andb_true_iff in H; destruct H
         end.
  repeat match goal with
         | H : (_ =? _)%nat = true |- _ => apply Nat.eqb_eq in H; subst
         | H : (_ <=? _)%nat = true |- _ => apply Nat.leb_le in H
         | H : negb _ = true |- _ => apply negb_true_iff in H
         end.
  repeat split; eauto.
  apply Z.eqb_neq. assumption.
Qed.

(** The state [main] hands to the message loop is [started]. *)
Lemma main_startup_started (st st' : State OS) :
  mu st = false ->
  main_startup st = (Ret tt, st') ->
  started st' = true.
Proof.
  intros Hm E.
  destruct (main_startup_ret _ _ E) as (Hh & Hc & Hs & Hco & Hmu).
  unfold started. rewrite Hc, Hs, Hco, Hmu, Hm.
  apply Z.eqb_neq in Hh. rewrite Hh. reflexivity.
Qed.

Ltac only_delete :=
  let m := fresh "m" in
  let nid := fresh "nid" in
  let r := fresh "r" in
  let Hin := fresh "Hin" in
  intros m nid r Hin; cbn in Hin;
  repeat (destruct Hin as [Hin|Hin];
          [ first [ discriminate Hin
                  | injection Hin as <- <- <-; reflexivity ]
          | ]);
  contradiction.

Lemma dispatch_report (st st' : State OS) (out : Outcome unit)
    (hwnd msg w l : Z) :
  started st = true ->
  step (Dispatch hwnd msg w l) st = (out, st') ->
  exists u, step_report (Dispatch hwnd msg w l) st st' out u.
Proof.
  intros Hst E.
  destruct (started_inv st Hst)
    as (Hh & Hco & Hmu & (q & Hq & Hlen & Hall) & (p & Hp & Hplen)).
  destruct st as [o hi hw m cs ss co t].
  cbn [hWnd coordinator mu commands signals] in Hh, Hco, Hmu, Hq, Hp.
  subst m cs ss co.
  destruct (is_open_ui (Dispatch hwnd msg w l)) eqn:Hopen.
  - (* the token is queued or dropped *)
    pose proof Hopen as Hyes.
    cbn in Hopen. apply andb_true_iff in Hopen. destruct Hopen as [Hmsg Hw].
    apply Z.eqb_eq in Hmsg, Hw. subst msg.
    cbn [step] in E. unfold bind in E.
    destruct (Nat.lt_ge_cases (List.length q) COMMANDS_CAP) as [Hlt|Hge].
    + erewrite wndProc_open_ui_queued in E;
        [|exact Hw|reflexivity|exact Hlt].
      unfold ret, set_commands, set_trace in E.
      cbn [os hInst hWnd mu commands signals coordinator trace cap buf] in E.
      injection E as <- <-.
      exists [Printf "opened the UI" []].
      unfold step_report. rewrite Hyes.
      cbn [trace hWnd].
      repeat split; try reflexivity.
      * only_delete.
      * unfold started. cbn [hWnd coordinator mu commands signals cap buf].
        apply Z.eqb_neq in Hh. rewrite Hh.
        rewrite length_app, forallb_app, Hall.
        cbn [List.length forallb negb andb].
        rewrite Nat.eqb_refl, String.eqb_refl.
        replace (List.length q + 1 <=? COMMANDS_CAP)%nat with true
          by (symmetry; apply Nat.leb_le; lia).
        replace (List.length p <=? SIGNALS_CAP)%nat with true
          by (symmetry; apply Nat.leb_le; lia).
        reflexivity.
      * unfold queued. cbn [commands buf].
        rewrite length_app. cbn [List.length].
        change (count_println ACK [Printf "opened the UI" []]) with 0%nat.
        change (count_println DROP [Printf "opened the UI" []]) with 0%nat.
        lia.
    + erewrite wndProc_open_ui_dropped in E;
        [|exact Hw|reflexivity|exact Hge].
      unfold ret, set_trace in E.
      cbn [os hInst hWnd mu commands signals coordinator trace] in E.
      injection E as <- <-.
      exists [Printf "opened the UI" []; Println DROP []].
      unfold step_report. rewrite Hyes.
      cbn [trace hWnd].
      repeat split; try reflexivity.
      * only_delete.
      * exact Hst.
      * unfold queued. cbn [commands buf].
        change (count_println ACK [Printf "opened the UI" []; Println DROP []])
          with 0%nat.
        change (count_println DROP [Printf "opened the UI" []; Println DROP []])
          with 1%nat.
        lia.
  - (* every other message leaves the queue alone *)
    pose proof Hopen as Hno. cbn in Hopen.
    revert E. cbn [step]. prog.
    crunch; intros E; injection E as <- <-;
      try (apply andb_false_iff in Hopen; destruct Hopen; congruence);
      first
        [ exists []; unfold step_report; cbn [trace hWnd];
          rewrite app_nil_r; (split; [reflexivity|])
        | eexists; unfold step_report; cbn [trace hWnd]; tidy;
          (split; [reflexivity|]) ];
      (split; [reflexivity|]);
      (split; [only_delete|]);
      (split; [exact Hst|]); rewrite Hno; unfold queued; cbn; lia.
Qed.

Lemma coord_report (st st' : State OS) (out : Outcome unit) (pick : bool) :
  started st = true ->
  step (Coord pick) st = (out, st') ->
  exists u, step_report (Coord pick) st st' out u.
Proof.
  intros Hst E.
  destruct (started_inv st Hst)
    as (Hh & Hco & Hmu & (q & Hq & Hlen & Hall) & (p & Hp & Hplen)).
  destruct st as [o hi hw m cs ss co t].
  cbn [hWnd coordinator mu commands signals] in Hh, Hco, Hmu, Hq, Hp.
  subst m cs ss co. apply Z.eqb_neq in Hh.
  assert (Hq' : forall c q', q = c :: q' ->
                  c = "OpenUI" /\
                  started (mkState o hi hw false
                             (Some (mkChan COMMANDS_CAP q'))
                             (Some (mkChan SIGNALS_CAP p)) true
                             (t ++ [Println ACK []])) = true).
  { intros c q' ->. cbn [forallb] in Hall.
    apply andb_true_iff in Hall. destruct Hall as [Hc Hall'].
    apply String.eqb_eq in Hc. split; [symmetry; exact Hc|].
    unfold started. cbn [hWnd coordinator mu commands signals cap buf].
    rewrite Hh, Hall', Nat.eqb_refl. cbn [List.length] in Hlen.
    replace (List.length q' <=? COMMANDS_CAP)%nat with true
      by (symmetry; apply Nat.leb_le; lia).
    replace (List.length p <=? SIGNALS_CAP)%nat with true
      by (symmetry; apply Nat.leb_le; lia).
    reflexivity. }
  revert E. cbn [step coordinator].
  destruct q as [|c q']; destruct p as [|sg p']; destruct pick;
    try (destruct (Hq' c q' eq_refl) as [-> Hst']);
    prog; cbn; rewrite ?Hh; crunch;
    intros E; injection E as <- <-;
    first
      [ exists []; unfold step_report; cbn [trace hWnd];
        rewrite app_nil_r; (split; [reflexivity|])
      | eexists; unfold step_report; cbn [trace hWnd]; tidy;
        (split; [reflexivity|]) ];
    (split; [reflexivity|]);
    (split; [only_delete|]);
    first
      [ split; [first [exact Hst | exact Hst']|];
        unfold queued; cbn; lia
      | repeat split; cbn; lia ].
Qed.

Lemma deliver_report (st st' : State OS) (out : Outcome unit) (sig : Signal) :
  started st = true ->
  step (Deliver sig) st = (out, st') ->
  exists u, step_report (Deliver sig) st st' out u.
Proof.
  intros Hst E.
  destruct (started_inv st Hst)
    as (Hh & Hco & Hmu & (q & Hq & Hlen & Hall) & (p & Hp & Hplen)).
  destruct st as [o hi hw m cs ss co t].
  cbn [hWnd coordinator mu commands signals] in Hh, Hco, Hmu, Hq, Hp.
  subst m cs ss co. apply Z.eqb_neq in Hh.
  exists []. revert E. cbn [step]. prog. cbn [signals].
  unfold step_report.
  destruct p as [|s0 p'].
  - cbn. intros E; injection E as <- <-. cbn. rewrite app_nil_r.
    repeat split; try reflexivity; try contradiction;
      first [exact Hst | lia | (unfold queued; cbn; lia)].
  - assert (p' = [])
      by (destruct p'; [reflexivity|cbn in Hplen; unfold SIGNALS_CAP in Hplen; lia]).
    subst p'. cbn. intros E; injection E as <- <-. cbn. rewrite app_nil_r.
    repeat split; try reflexivity; try contradiction;
      first [exact Hst | lia | (unfold queued; cbn; lia)].
Qed.

(** One step from a [started] state: the trace only grows, the window
    handle stays, the shell is asked for nothing about the icon but its
    deletion; a step that returns leaves a [started] state and loses no
    token; a step that ends the process is a goroutine turn with a signal
    waiting; no step parks. *)
Lemma step_from_started (s : Step) (st st' : State OS) (out : Outcome unit) :
  started st = true ->
  step s st = (out, st') ->
  exists u, step_report s st st' out u.
Proof.
  destruct s as [hwnd msg w l|pick|sig].
  - apply dispatch_report.
  - apply coord_report.
  - apply deliver_report.
Qed.

(** A run from a [started] state, by induction on its steps. *)
Lemma run_from_started (steps : list Step) :
  forall (st st' : State OS) (out : Outcome unit),
    started st = true ->
    run steps st = (out, st') ->
    exists u : list Event,
      trace st' = trace st ++ u /\
      hWnd st' = hWnd st /\
      (forall (m : Z) (nid : notifyIconData) (r : Reply),
          In (Sys (Shell_NotifyIconW m nid) r) u -> m = NIM_DELETE) /\
      match out with
      | Ret _ =>
          started st' = true /\
          (count_println ACK u + count_println DROP u + queued st' =
           queued st + List.length (filter is_open_ui steps))%nat
      | Exited c => c = 0
      | Blocked => False
      end.
Proof.
  induction steps as [|s steps IH]; intros st st' out Hst E.
  - injection E as <- <-. exists []. rewrite app_nil_r.
    repeat split; auto; try contradiction.
  - cbn [run] in E. unfold bind in E.
    destruct (step s st) as [o1 s1] eqn:Es.
    destruct (step_from_started s st s1 o1 Hst Es) as (u1 & Ht1 & Hh1 & Hd1 & Ho1).
    destruct o1 as [[]|c1|].
    + destruct Ho1 as [Hst1 Hn1].
      destruct (IH s1 st' out Hst1 E) as (u2 & Ht2 & Hh2 & Hd2 & Ho2).
      exists (u1 ++ u2). rewrite Ht2, Ht1, app_assoc, Hh2, Hh1.
      repeat split; auto.
      * intros m nid r Hin. apply in_app_or in Hin.
        destruct Hin; [eapply Hd1|eapply Hd2]; eassumption.
      * destruct out as [[]|c|]; auto.
        destruct Ho2 as [Hst2 Hn2]. split; [exact Hst2|].
        rewrite !count_println_app. cbn [filter].
        destruct (is_open_ui s); cbn [List.length]; lia.
    + injection E as <- <-. destruct Ho1 as (-> & _ & _).
      exists u1. repeat split; auto.
    + contradiction.
Qed.

(** X14: after a start-up that went through, whatever messages, signals
    and goroutine turns follow, the global window handle is never written
    again: it keeps the non-zero value start-up gave it, also after the
    window has been destroyed.  As long as the process lives the goroutine
    is running (it never takes the [return] of its signal case) and the
    two queues stay within their capacities. *)
Theorem running_invariant
    (st0 st st' : State OS) (steps : list Step) (out : Outcome unit) :
  mu st0 = false ->
  main_startup st0 = (Ret tt, st) ->
  run steps st = (out, st') ->
  hWnd st' = hWnd st /\ hWnd st' <> 0 /\
  (out = Ret tt ->
   coordinator st' = true /\
   (queued st' <= COMMANDS_CAP)%nat /\ (pending st' <= SIGNALS_CAP)%nat).
Proof.
  intros Hm E0 E.
  pose proof (main_startup_started _ _ Hm E0) as Hst.
  destruct (started_inv _ Hst) as (Hh & _).
  destruct (run_from_started steps _ _ _ Hst E) as (u & _ & Hh' & _ & Ho).
  split; [exact Hh'|]. split; [rewrite Hh'; exact Hh|].
  intros ->. destruct Ho as [Hst' _].
  destruct (started_inv _ Hst')
    as (_ & Hco & _ & (q & Hq & Hlen & _) & (p & Hp & Hplen)).
  unfold queued, pending. rewrite Hq, Hp. auto.
Qed.

(** X15: no "Open UI" token is lost without a trace.  Over any run that
    returns, the notifications handed to the window procedure are all
    accounted for: each one is still queued, or has been acknowledged by
    the goroutine, or was dropped with its line of output. *)
Theorem no_token_lost_silently
    (st st' : State OS) (steps : list Step) :
  started st = true ->
  run steps st = (Ret tt, st') ->
  (count_println "Command to open UI received" (added st st') +
   count_println "no listener on OpenUI command" (added st st') +
   queued st' =
   queued st + List.length (filter is_open_ui steps))%nat.
Proof.
  intros Hst E.
  destruct (run_from_started steps _ _ _ Hst E) as (u & Ht & _ & _ & _ & Hn).
  rewrite (added_app _ _ _ Ht). exact Hn.
Qed.

(** X16: once it runs, the process asks the shell for nothing about the
    icon but its deletion: an icon that a session-end or destroy
    notification removed is not added again, and no balloon is shown,
    while the process lives. *)
Theorem running_only_deletes_icon
    (st st' : State OS) (steps : list Step) (out : Outcome unit)
    (m : Z) (nid : notifyIconData) (r : Reply) :
  started st = true ->
  run steps st = (out, st') ->
  In (Sys (Shell_NotifyIconW m nid) r) (added st st') ->
  m = NIM_DELETE.
Proof.
  intros Hst E Hin.
  destruct (run_from_started steps _ _ _ Hst E) as (u & Ht & _ & Hd & _).
  rewrite (added_app _ _ _ Ht) in Hin. eapply Hd. exact Hin.
Qed.

(** A goroutine turn with a signal waiting: it ends the process, or it
    takes a token off the queue and the signal is still waiting. *)
Lemma coord_with_signal (st : State OS) (pick : bool) :
  started st = true ->
  (0 < pending st)%nat ->
  fst (step (Coord pick) st) = Exited 0 \/
  (fst (step (Coord pick) st) = Ret tt /\
   started (snd (step (Coord pick) st)) = true /\
   (0 < pending (snd (step (Coord pick) st)))%nat /\
   S (queued (snd (step (Coord pick) st))) = queued st).
Proof.
  intros Hst Hp.
  destruct (step (Coord pick) st) as [out st'] eqn:E.
  destruct (coord_report st st' out pick Hst E) as (u & Ht & Hh & Hd & Ho).
  destruct (started_inv st Hst)
    as (Hhw & Hco & Hmu & (q & Hq & Hlen & Hall) & (p & Hps & Hplen)).
  cbn [fst snd].
  destruct out as [[]|c|].
  - right. destruct Ho as [Hst' Hn]. split; [reflexivity|].
    split; [exact Hst'|].
    (* the turn returned: it must have taken a token *)
    revert E. cbn [step]. rewrite Hco.
    unfold pending in Hp. rewrite Hps in Hp. cbn [buf] in Hp.
    destruct p as [|sg p']; [cbn in Hp; lia|].
    destruct q as [|c q'].
    + rewrite (coordinator_iter_signal st pick sg (mkChan SIGNALS_CAP p'))
        by (rewrite ?Hps, ?Hq; auto).
      destruct (coordinator_signal_exits st (mkChan SIGNALS_CAP p') Hhw)
        as (rp & s0 & _ & _ & ->). discriminate.
    + destruct pick.
      * rewrite (coordinator_iter_command st true c (mkChan COMMANDS_CAP q'))
          by (rewrite ?Hps, ?Hq; auto).
        destruct st as [o hi hw m cs ss co t].
        cbn [commands signals] in Hq, Hps. subst cs ss.
        unfold coordinator_command, bind, modify, ret, fmt_Println, emit.
        cbn. destruct (String.eqb c "OpenUI"); cbn;
          intros E; injection E as <-; unfold pending, queued; cbn; lia.
      * rewrite (coordinator_iter_signal st false sg (mkChan SIGNALS_CAP p'))
          by (rewrite ?Hps, ?Hq; auto).
        destruct (coordinator_signal_exits st (mkChan SIGNALS_CAP p') Hhw)
          as (rp & s0 & _ & _ & ->). discriminate.
  - left. destruct Ho as (-> & _). reflexivity.
  - contradiction.
Qed.

(** A signal handed to the running process is waiting afterwards, whether
    it was put on the channel or found the channel full; the command queue
    is not touched. *)
Lemma deliver_leaves_signal (st : State OS) (sig : Signal) :
  started st = true ->
  fst (step (Deliver sig) st) = Ret tt /\
  started (snd (step (Deliver sig) st)) = true /\
  (0 < pending (snd (step (Deliver sig) st)))%nat /\
  queued (snd (step (Deliver sig) st)) = queued st.
Proof.
  intros Hst.
  destruct (started_inv st Hst)
    as (Hhw & Hco & Hmu & (q & Hq' & Hlen & Hall) & (p & Hps & Hplen)).
  destruct st as [o hi hw m cs ss co t].
  cbn [hWnd coordinator mu commands signals] in Hhw, Hco, Hmu, Hq', Hps.
  subst m cs ss co. cbn [step]. prog. cbn [signals].
  destruct p as [|s0 p'].
  - cbn. repeat split; [exact Hst|unfold pending; cbn; lia].
  - assert (p' = [])
      by (destruct p'; [reflexivity
                       |cbn in Hplen; unfold SIGNALS_CAP in Hplen; lia]).
    subst p'. cbn.
    repeat split; [exact Hst|unfold pending; cbn; lia].
Qed.

(** One step with a signal waiting: it ends the process, or the signal is
    still waiting and the queue has grown by at most the token the step
    brought, less the token a goroutine turn took. *)
Lemma step_with_signal (s : Step) (st : State OS) :
  started st = true ->
  (0 < pending st)%nat ->
  fst (step s st) = Exited 0 \/
  (fst (step s st) = Ret tt /\
   started (snd (step s st)) = true /\
   (0 < pending (snd (step s st)))%nat /\
   (queued (snd (step s st)) + (if is_coord s then 1 else 0) <=
    queued st + (if is_open_ui s then 1 else 0))%nat).
Proof.
  intros Hst Hp. destruct s as [hwnd msg w l|pick|sig].
  - right.
    destruct (started_inv st Hst) as (_ & _ & Hmu & _).
    destruct (wndProc_returns st hwnd msg w l Hmu)
      as (z & s1 & Ew & _ & _ & Hsig & _).
    assert (Es : step (Dispatch hwnd msg w l) st = (Ret tt, s1))
      by (cbn [step]; unfold bind; rewrite Ew; reflexivity).
    destruct (dispatch_report st s1 (Ret tt) hwnd msg w l Hst Es)
      as (u & _ & _ & _ & Hst1 & Hn).
    rewrite Es. cbn [fst snd is_coord].
    repeat split; [exact Hst1| |lia].
    unfold pending in *. rewrite Hsig. exact Hp.
  - destruct (coord_with_signal st pick Hst Hp) as [Hx|(Hr & Hst' & Hp' & Hq')].
    + left. exact Hx.
    + right. cbn [is_coord is_open_ui]. repeat split; auto. lia.
  - right. destruct (deliver_leaves_signal st sig Hst) as (Hr & Hst' & Hp' & Hq').
    cbn [is_coord is_open_ui]. repeat split; auto. lia.
Qed.

(** With a signal waiting, a run in which the goroutine gets more turns
    than there are tokens, queued or still to come, ends the process. *)
Lemma steps_end_process (steps : list Step) :
  forall st : State OS,
    started st = true ->
    (0 < pending st)%nat ->
    (queued st + List.length (filter is_open_ui steps) <
     List.length (filter is_coord steps))%nat ->
    fst (run steps st) = Exited 0.
Proof.
  induction steps as [|s steps IH]; intros st Hst Hp Hq.
  - cbn in Hq. lia.
  - cbn [run]. unfold bind.
    destruct (step_with_signal s st Hst Hp) as [Hx|(Hr & Hst' & Hp' & Hq')].
    + destruct (step s st) as [o1 s1]. cbn in Hx. subst o1. reflexivity.
    + destruct (step s st) as [o1 s1]. cbn [fst snd] in *. subst o1.
      apply IH; auto. cbn [filter] in Hq.
      destruct (is_open_ui s), (is_coord s); cbn [List.length] in Hq; lia.
Qed.

(** X17: a termination signal ends the process.  From any state the
    running process is in between two steps, once the signal is delivered
    the process exits with status 0 as soon as the goroutine has had more
    turns than there were tokens queued at the delivery plus "Open UI"
    notifications dispatched since, whatever messages are dispatched and
    signals delivered in between and whichever ready case the [select]
    picks each time. *)
Theorem signal_ends_process
    (st : State OS) (sig : Signal) (steps : list Step) :
  started st = true ->
  (queued st + List.length (filter is_open_ui steps) <
   List.length (filter is_coord steps))%nat ->
  fst (run (Deliver sig :: steps) st) = Exited 0.
Proof.
  intros Hst Hq.
  destruct (deliver_leaves_signal st sig Hst) as (Hr & Hst1 & Hp1 & Hq1).
  cbn [run]. unfold bind.
  destruct (step (Deliver sig) st) as [o1 s1]. cbn [fst snd] in *. subst o1.
  apply steps_end_process; auto. lia.
Qed.

(** The last two calls of the goroutine's signal case. *)
Lemma teardown_trace (s0 : State OS) (h : Z) :
  exists rd rw : Reply,
    trace (snd (destroyWindow h (snd (removeTrayIcon h s0)))) =
      trace s0 ++ [Sys (Shell_NotifyIconW NIM_DELETE (nid_delete h)) rd;
                   Sys (DestroyWindow h) rw].
Proof.
  destruct s0 as [o hi hw m cs ss co t]. prog. crunch;
    do 2 eexists; cbn; tidy; reflexivity.
Qed.

(** X19: the goroutine cleans up before it ends the process.  At any point
    after a start-up that went through, a goroutine turn that ends the
    process does so with status 0, and the last two calls it has made ask
    the shell to delete the very icon start-up added (same owner, same
    identifier) and destroy the window that owns it.  A process that ends
    because the message loop returned is not the subject here. *)
Theorem goroutine_exit_removes_what_startup_made
    (st0 st st1 st2 : State OS) (steps : list Step) (pick : bool) (c : Z)
    (nidA : notifyIconData) (ra : Reply) :
  mu st0 = false ->
  main_startup st0 = (Ret tt, st) ->
  In (Sys (Shell_NotifyIconW NIM_ADD nidA) ra) (added st0 st) ->
  run steps st = (Ret tt, st1) ->
  coordinator_iter pick st1 = (Exited c, st2) ->
  c = 0 /\
  exists (u : list Event) (nidD : notifyIconData) (rd rw : Reply),
    added st1 st2 =
      u ++ [Sys (Shell_NotifyIconW NIM_DELETE nidD) rd;
            Sys (DestroyWindow (HWnd nidA)) rw] /\
    HWnd nidD = HWnd nidA /\ UID nidD = UID nidA.
Proof.
  intros Hm E0 Hadd Hr E.
  pose proof (main_startup_started _ _ Hm E0) as Hst.
  destruct (main_startup_survey _ _ _ E0) as (_ & _ & Hi & _).
  rewrite Forall_forall in Hi.
  destruct (Hi (NIM_ADD, nidA) (in_icon_requests _ _ _ _ Hadd))
    as (HA & UA & _). cbn [snd] in HA, UA.
  destruct (run_from_started steps _ _ _ Hst Hr) as (u1 & _ & Hhw & _).
  destruct (coordinator_iter_exit st1 st2 pick c E)
    as (-> & Hh1 & sig & rest & _ & Hx).
  split; [reflexivity|].
  destruct (coordinator_signal_exits st1 rest Hh1) as (rp & s0 & Ht0 & _ & Hx').
  rewrite Hx' in Hx. injection Hx as <-.
  destruct (teardown_trace s0 (hWnd st1)) as (rd & rw & Ht).
  exists ([Println "Signal received" [];
           Sys (PostMessageW (hWnd st1) WM_CLOSE 0 0) rp] ++
          (if r1 rp =? 0
           then [Println "PostMessage to close window failed" []]
           else [])),
         (nid_delete (hWnd st1)), rd, rw.
  split; [|split; [rewrite HA, Hhw; reflexivity|rewrite UA; reflexivity]].
  apply added_app. rewrite Ht, Ht0, HA, Hhw.
  rewrite <- !app_assoc. reflexivity.
Qed.

End Properties.

(** * Witnesses and counterexamples *)

(** The coordinator takes a pending SIGTERM on the simulated shell. *)
Lemma coordinator_signal_shutdown_sequence_witness :
  exists (rp rd rw : Reply) (t : list Event) (st' : State Sim.Shell),
    coordinator_iter true Runs.signalled = (Exited 0, st') /\
    trace st' = trace Runs.signalled ++ t /\
    t = [Println "Signal received" [];
         Sys (PostMessageW (hWnd Runs.signalled) WM_CLOSE 0 0) rp] ++
        (if r1 rp =? 0
         then [Println "PostMessage to close window failed" []]
         else []) ++
        [Sys (Shell_NotifyIconW NIM_DELETE (nid_delete (hWnd Runs.signalled))) rd;
         Sys (DestroyWindow (hWnd Runs.signalled)) rw] /\
    calls_of t =
      [PostMessageW (hWnd Runs.signalled) WM_CLOSE 0 0;
       Shell_NotifyIconW NIM_DELETE (nid_delete (hWnd Runs.signalled));
       DestroyWindow (hWnd Runs.signalled)].
Proof.
  apply (coordinator_signal_shutdown_sequence Runs.signalled true SIGTERM
           (mkChan 1 [])).
  - vm_compute. discriminate.
  - reflexivity.
  - left. reflexivity.
Defined.

(** C2, counterexample: the two command identifiers are the other way
    round. *)
Lemma command_identifiers_swapped :
  IDM_OPEN_UI <> 1 /\ IDM_EXIT <> 2.
Proof. split; discriminate. Qed.

(** C3, counterexample: on a host that refuses the balloon, the modify
    request of [showNotification] fails and the process ends with status 1
    before the goroutine is started. *)
Lemma balloon_failure_ends_process :
  main_startup (init_state Sim.boot_no_balloon) = Runs.balloon_refused /\
  fst Runs.balloon_refused = Exited 1 /\
  In (Sys (Shell_NotifyIconW NIM_MODIFY Runs.balloon_request) (Sim.fail 1008))
    (trace (snd Runs.balloon_refused)) /\
  last (trace (snd Runs.balloon_refused)) (Println "" []) =
    LogFatal "showNotification: "
      [AErr (Errorf "Shell_NotifyIcon failed: %w" (Errno 1008))] /\
  coordinator (snd Runs.balloon_refused) = false.
Proof.
  split; [vm_compute; reflexivity|].
  split; [reflexivity|].
  split; [|split; reflexivity].
  vm_compute. do 11 right. left. reflexivity.
Qed.

Lemma startup_modify_failure_is_fatal_witness :
  fst Runs.balloon_refused = Exited 1 /\
  coordinator (snd Runs.balloon_refused) = coordinator (init_state Sim.boot_no_balloon) /\
  exists (t1 : list Event) (text format : string),
    trace (snd Runs.balloon_refused) =
      t1 ++ [Sys (Shell_NotifyIconW NIM_MODIFY Runs.balloon_request) (Sim.fail 1008);
             LogFatal text [AErr (Errorf format (Errno (lastErr (Sim.fail 1008))))]] /\
    ((text = "addTrayIcon: " /\
      format = "shell_notifyicon modify failed: %w" /\
      UFlags Runs.balloon_request = NIF_STATE)
     \/
     (text = "showNotification: " /\
      format = "Shell_NotifyIcon failed: %w" /\
      UFlags Runs.balloon_request = NIF_INFO)).
Proof.
  apply (startup_modify_failure_is_fatal
           (init_state Sim.boot_no_balloon) (snd Runs.balloon_refused)
           (fst Runs.balloon_refused) (trace (snd Runs.balloon_refused))
           Runs.balloon_request (Sim.fail 1008)).
  - vm_compute. reflexivity.
  - reflexivity.
  - vm_compute. do 11 right. left. reflexivity.
  - reflexivity.
Defined.




(** C7, counterexample: with no module handle the process is ended by
    [main], with status 1, after a single call and before there is a
    window, a queue or a goroutine. *)
Lemma startup_exit_outside_coordinator :
  fst (main_startup (init_state Sim.boot_no_module)) = Exited 1 /\
  trace (snd (main_startup (init_state Sim.boot_no_module))) =
    [Println "About to call GetModuleHandle" [];
     Sys (GetModuleHandleW 0) (Sim.fail 126);
     LogFatal "GetModuleHandle failed: returned NULL" []] /\
  coordinator (snd (main_startup (init_state Sim.boot_no_module))) = false.
Proof. repeat split; vm_compute; reflexivity. Qed.

(** Part of C7 at work: the "Exit" entry is chosen, the window is closed
    and destroyed, and the process is still there; it ends when the
    goroutine takes a signal. *)
Lemma process_exit_paths_witness :
  fst (run [Dispatch 0x1001 WM_COMMAND IDM_EXIT 0;
            Dispatch 0x1001 WM_CLOSE 0 0;
            Dispatch 0x1001 WM_DESTROY 0 0] Sim.running) = Ret tt /\
  (run [Deliver SIGINT; Coord true] Sim.running =
     (Exited 0, snd (run [Deliver SIGINT; Coord true] Sim.running)) ->
   0 = 0 /\
   exists (pre post : list Step) (pick : bool) (st1 : State Sim.Shell),
     [Deliver SIGINT; Coord true] = pre ++ Coord pick :: post /\
     run pre Sim.running = (Ret tt, st1) /\
     coordinator_iter pick st1 =
       (Exited 0, snd (run [Deliver SIGINT; Coord true] Sim.running))).
Proof.
  split; [vm_compute; reflexivity|].
  destruct (process_exit_paths (G := Sim.gateway)) as (_ & _ & _ & H & _).
  apply H.
Defined.

(** C8, counterexample: sub-code 0x404 is none of the three pointer codes,
    and the window procedure prints nothing for it. *)
Lemma tray_subcode_0x404_is_silent :
  0x404 <> WM_MOUSEMOVE /\ 0x404 <> WM_LBUTTONDOWN /\ 0x404 <> WM_RBUTTONUP /\
  wndProc 0x1001 WM_TRAYICON 0 0x404 Sim.running = (Ret 0, Sim.running).
Proof. repeat split; try discriminate. Qed.

Lemma wndProc_tray_other_subcode_witness :
  wndProc 0x1001 WM_TRAYICON 0 WM_LBUTTONUP Sim.running =
    (Ret 0,
     set_trace
       (trace Sim.running ++
          [Printf "Unknown mouse event received: %d\n" [AInt WM_LBUTTONUP]])
       Sim.running).
Proof.
  apply (wndProc_tray_other_subcode Sim.running 0x1001 0 WM_LBUTTONUP);
    discriminate.
Defined.

(** The callers of [removeTrayIcon] when the icon is already gone. *)
Lemma removeTrayIcon_error_discarded_by_callers_witness :
  (forall st0 : State Sim.Shell,
      r1 (fst (syscall (Shell_NotifyIconW NIM_DELETE (nid_delete 0x1001)) (os st0))) = 0 ->
      exists e, fst (removeTrayIcon 0x1001 st0) = Ret (Some e)) /\
  (exists st0 : State Sim.Shell,
      trace st0 = trace Runs.session_ended ++ [Println "WM_ENDSESSION received" []] /\
      wndProc 0x1001 WM_ENDSESSION 0 0 Runs.session_ended =
        (Ret 0, snd (removeTrayIcon 0x1001 st0))) /\
  (exists (rq : Reply) (st0 : State Sim.Shell),
      trace st0 = trace Runs.session_ended ++
                    [Println "WM_DESTROY received" [];
                     Sys (PostQuitMessage 0) rq;
                     Println "WM_ENDSESSION received" []] /\
      wndProc 0x1001 WM_DESTROY 0 0 Runs.session_ended =
        (Ret 0, snd (removeTrayIcon 0x1001 st0))) /\
  (exists st0 : State Sim.Shell,
      coordinator_signal (mkChan 1 []) Runs.session_ended =
        (Exited 0,
         snd (destroyWindow (hWnd Runs.session_ended)
                (snd (removeTrayIcon (hWnd Runs.session_ended) st0))))).
Proof.
  apply (removeTrayIcon_error_discarded_by_callers Runs.session_ended
           0x1001 0 0 (mkChan 1 [])).
  vm_compute. discriminate.
Defined.

(** A second delete on the simulated shell: the shell refuses it and
    [removeTrayIcon] returns the error, yet the session-end case returns
    zero as before, prints nothing more than its own line, and the shell is
    as it was, the icon absent. *)
Example second_delete_is_silent :
  Sim.icon (os Sim.running) = true /\
  Sim.icon (os Runs.session_ended) = false /\
  fst (removeTrayIcon 0x1001 Runs.session_ended) =
    Ret (Some (Errorf "shell_notifyicon failed: %w" (Errno 1008))) /\
  fst (wndProc 0x1001 WM_ENDSESSION 0 0 Runs.session_ended) = Ret 0 /\
  os (snd (wndProc 0x1001 WM_ENDSESSION 0 0 Runs.session_ended)) =
    os Runs.session_ended /\
  trace (snd (wndProc 0x1001 WM_ENDSESSION 0 0 Runs.session_ended)) =
    trace Runs.session_ended ++
      [Println "WM_ENDSESSION received" [];
       Sys (Shell_NotifyIconW NIM_DELETE (nid_delete 0x1001)) (Sim.fail 1008)].
Proof. repeat split; vm_compute; reflexivity. Qed.

Lemma wndProc_open_ui_nil_channel_witness :
  wndProc 0 WM_COMMAND IDM_OPEN_UI 0 (init_state Sim.boot) =
    (Ret 0,
     set_trace (trace (init_state Sim.boot) ++
                  [Printf "opened the UI" [];
                   Println "no listener on OpenUI command" []])
       (init_state Sim.boot)).
Proof.
  apply (wndProc_open_ui_nil_channel (init_state Sim.boot) 0 IDM_OPEN_UI 0);
    reflexivity.
Defined.

(** [int32(wParam)] drops the upper half of the word: a notification code
    in the high bits does not change the command. *)
Example open_ui_with_high_bits :
  int32 (2 ^ 32 + IDM_OPEN_UI) = IDM_OPEN_UI /\
  fst (wndProc 0x1001 WM_COMMAND (2 ^ 32 + IDM_OPEN_UI) 0 Sim.running) = Ret 0 /\
  commands (snd (wndProc 0x1001 WM_COMMAND (2 ^ 32 + IDM_OPEN_UI) 0 Sim.running)) =
    Some (mkChan 10 ["OpenUI"]).
Proof. repeat split; vm_compute; reflexivity. Qed.

(** The whole life of the process on the healthy host: start-up, a right
    click, "Open UI" chosen, the goroutine acknowledging it, then SIGTERM. *)
Example a_day_in_the_tray :
  fst (main_startup (init_state Sim.boot)) = Ret tt /\
  snd (main_startup (init_state Sim.boot)) = Sim.running /\
  fst (run [Dispatch 0x1001 WM_TRAYICON 1 WM_RBUTTONUP;
            Dispatch 0x1001 WM_COMMAND IDM_OPEN_UI 0;
            Coord true;
            Deliver SIGTERM;
            Coord true] Sim.running) = Exited 0 /\
  calls_of
    (skipn (List.length (trace Sim.running))
       (trace (snd (run [Dispatch 0x1001 WM_TRAYICON 1 WM_RBUTTONUP;
                         Dispatch 0x1001 WM_COMMAND IDM_OPEN_UI 0;
                         Coord true;
                         Deliver SIGTERM;
                         Coord true] Sim.running)))) =
    [CreatePopupMenu;
     AppendMenuW 0x1002 MF_STRING IDM_OPEN_UI (Some "Open UI");
     AppendMenuW 0x1002 MF_SEPARATOR 0 None;
     AppendMenuW 0x1002 MF_STRING IDM_EXIT (Some "Exit");
     GetCursorPos;
     SetForegroundWindow 0x1001;
     TrackPopupMenu 0x1002 0x22 1900 1060 0 0x1001 0;
     DestroyMenu 0x1002;
     PostMessageW 0x1001 WM_CLOSE 0 0;
     Shell_NotifyIconW NIM_DELETE (nid_delete 0x1001);
     DestroyWindow 0x1001].
Proof. repeat split; vm_compute; reflexivity. Qed.

(** ** Witnesses for the further properties *)

(** X1: a message the procedure does not handle, on the running process. *)
Lemma wndProc_default_delegates_witness :
  wndProc 0x1001 WM_NULL 7 9 Sim.running =
    (Ret 0,
     set_trace (trace Sim.running ++
                [Printf "DefWindowProc: %d\n" [AInt WM_NULL];
                 Sys (DefWindowProcW 0x1001 WM_NULL 7 9) (mkReply 0 0)])
       Sim.running).
Proof.
  exact (wndProc_default_delegates Sim.running 0x1001 WM_NULL 7 9
           ltac:(discriminate) ltac:(discriminate) ltac:(discriminate)
           ltac:(discriminate) ltac:(discriminate)).
Defined.

(** X2: a close notification on the running process. *)
Lemma wndProc_handled_returns_zero_witness :
  fst (wndProc 0x1001 WM_CLOSE 0 0 Sim.running) = Ret 0.
Proof.
  apply wndProc_handled_returns_zero.
  - reflexivity.
  - right. right. right. right. reflexivity.
Defined.

(** X5: the "Open UI" identifier with notification code 1. *)
Lemma wndProc_command_with_code_is_unknown_witness :
  wndProc 0x1001 WM_COMMAND (IDM_OPEN_UI + 1 * 2 ^ 16) 0 Sim.running =
    (Ret 0,
     set_trace (trace Sim.running ++ [Println "Unknown command received" []])
       Sim.running).
Proof.
  apply (wndProc_command_with_code_is_unknown Sim.running 0x1001 IDM_OPEN_UI 1 0);
    unfold IDM_OPEN_UI; lia.
Defined.

(** X6: the default position of the window. *)
Lemma int32_uintptr_round_trip_witness :
  0 <= uintptr CW_USEDEFAULT < 2 ^ 64 /\
  int32 (uintptr CW_USEDEFAULT) = CW_USEDEFAULT.
Proof.
  apply int32_uintptr_round_trip. vm_compute.
  split; [discriminate|reflexivity].
Defined.

(** X7: the add request of [addTrayIcon] at process start. *)
Lemma icon_requests_name_one_icon_witness :
  HWnd Cases.tray_request = 0x1001 /\ UID Cases.tray_request = 1 /\
  (NIM_ADD = NIM_ADD ->
   UCallbackMessage Cases.tray_request = WM_TRAYICON /\
   Z.testbit (UFlags Cases.tray_request) 0 = true /\
   forall (st2 : State Sim.Shell) (h w l : Z),
     wndProc h (UCallbackMessage Cases.tray_request) w l st2 =
     wndProc_trayicon l st2).
Proof.
  apply (icon_requests_name_one_icon (init_state Sim.boot) 0x1001 "" ""
           NIM_ADD Cases.tray_request Sim.ok).
  left. vm_compute. repeat (first [left; reflexivity | right]).
Defined.

(** X8: a title with a NUL in it. *)
Lemma showNotification_rejects_nul_witness :
  exists (t : list Event) (st' : State Sim.Shell),
    showNotification 0x1001 Cases.nul_title "body" Sim.running =
      (Ret (Some (Errorf (if has_nul Cases.nul_title
                          then "failed to convert title to UTF-16: %w"
                          else "failed to convert message to UTF-16: %w")
                    EINVAL)),
       st') /\
    trace st' = trace Sim.running ++ t /\
    calls_of t = [LoadIconW 0 (MAKEINTRESOURCE (uint16 IDI_APPLICATION))].
Proof.
  apply showNotification_rejects_nul. reflexivity.
Defined.

(** X9: the menu requested while the mutex is held. *)
Lemma showMenu_parks_holding_a_menu_witness :
  exists (t : list Event) (st' : State Sim.Shell),
    showMenu (mutex_held Sim.running) = (Blocked, st') /\
    trace st' = trace (mutex_held Sim.running) ++ t /\
    calls_of t =
      [CreatePopupMenu;
       AppendMenuW 0x1002 MF_STRING IDM_OPEN_UI (Some "Open UI");
       AppendMenuW 0x1002 MF_SEPARATOR 0 None;
       AppendMenuW 0x1002 MF_STRING IDM_EXIT (Some "Exit");
       GetCursorPos].
Proof.
  assert (H : r1 (fst (syscall CreatePopupMenu (os (mutex_held Sim.running))))
              <> 0) by (vm_compute; discriminate).
  exact (showMenu_parks_holding_a_menu (mutex_held Sim.running) eq_refl H).
Defined.

(** X10: the "Exit" entry of the menu on the running process. *)
Lemma menu_entries_are_known_commands_witness :
  (IDM_EXIT = IDM_OPEN_UI \/ IDM_EXIT = IDM_EXIT) /\
  forall (st2 : State Sim.Shell) (hwnd l : Z),
    ~ In (Println "Unknown command received" [])
        (added st2 (snd (wndProc hwnd WM_COMMAND IDM_EXIT l st2))).
Proof.
  apply (menu_entries_are_known_commands Sim.running 0x1002 MF_STRING
           IDM_EXIT (Some "Exit") Sim.ok).
  - vm_compute. repeat (first [left; reflexivity | right]).
  - discriminate.
Defined.

(** X12: start-up on the healthy host makes all eleven calls. *)
Lemma startup_calls_in_program_order_witness :
  exists rest : list Proc,
    map proc_of (calls_of (added (init_state Sim.boot) Sim.running)) ++ rest =
      [PGetModuleHandleW; PLoadIconW; PLoadCursorW; PRegisterClassW;
       PCreateWindowExW; PShowWindow;
       PLoadIconW; PShell_NotifyIconW NIM_ADD; PShell_NotifyIconW NIM_MODIFY;
       PLoadIconW; PShell_NotifyIconW NIM_MODIFY] /\
    (Ret tt = Ret tt -> rest = []) /\
    (Ret tt <> Ret tt -> Ret tt = Exited 1).
Proof.
  apply (startup_calls_in_program_order (init_state Sim.boot) Sim.running
           (Ret tt)).
  vm_compute. reflexivity.
Defined.

(** X13: the start-up that ends at the refused balloon has added the icon
    and has not deleted it. *)
Lemma startup_never_releases_witness :
  is_release (proc_of (Shell_NotifyIconW NIM_ADD Cases.tray_request)) = false.
Proof.
  apply (startup_never_releases (init_state Sim.boot_no_balloon)
           (snd Runs.balloon_refused) (fst Runs.balloon_refused)
           (Shell_NotifyIconW NIM_ADD Cases.tray_request) Sim.ok).
  - vm_compute. reflexivity.
  - vm_compute. repeat (first [left; reflexivity | right]).
Defined.

(** X18: start-up on the healthy host. *)
Lemma startup_icon_belongs_to_window_witness :
  (forall (m : Z) (nid : notifyIconData) (r : Reply),
      In (Sys (Shell_NotifyIconW m nid) r)
         (added (init_state Sim.boot) Sim.running) ->
      HWnd nid = hWnd Sim.running /\ UID nid = 1 /\ hWnd Sim.running <> 0) /\
  (forall (h cmd : Z) (r : Reply),
      In (Sys (ShowWindow h cmd) r)
         (added (init_state Sim.boot) Sim.running) ->
      h = hWnd Sim.running /\ cmd = SW_HIDE /\ hWnd Sim.running <> 0).
Proof.
  apply (startup_icon_belongs_to_window (init_state Sim.boot) Sim.running
           (Ret tt)).
  vm_compute. reflexivity.
Defined.

(** X14: the running process after the window has been closed and
    destroyed. *)
Lemma running_invariant_witness :
  let st' := snd (run [Dispatch 0x1001 WM_CLOSE 0 0;
                       Dispatch 0x1001 WM_DESTROY 0 0] Sim.running) in
  hWnd st' = hWnd Sim.running /\ hWnd st' <> 0 /\
  (Ret tt = Ret tt ->
   coordinator st' = true /\
   (queued st' <= COMMANDS_CAP)%nat /\ (pending st' <= SIGNALS_CAP)%nat).
Proof.
  apply (running_invariant (init_state Sim.boot) Sim.running _
           [Dispatch 0x1001 WM_CLOSE 0 0; Dispatch 0x1001 WM_DESTROY 0 0]
           (Ret tt)).
  - reflexivity.
  - vm_compute. reflexivity.
  - vm_compute. reflexivity.
Defined.

(** X15: twelve clicks and three goroutine turns. *)
Lemma no_token_lost_silently_witness :
  let st' := snd (run Cases.busy_steps Sim.running) in
  (count_println "Command to open UI received" (added Sim.running st') +
   count_println "no listener on OpenUI command" (added Sim.running st') +
   queued st' =
   queued Sim.running + List.length (filter is_open_ui Cases.busy_steps))%nat.
Proof.
  apply (no_token_lost_silently Sim.running _ Cases.busy_steps).
  - vm_compute. reflexivity.
  - vm_compute. reflexivity.
Defined.

(** X16: the request of a session-end notification. *)
Lemma running_only_deletes_icon_witness : NIM_DELETE = NIM_DELETE.
Proof.
  apply (running_only_deletes_icon Sim.running Runs.session_ended
           [Dispatch 0x1001 WM_ENDSESSION 0 0] (Ret tt)
           NIM_DELETE (nid_delete 0x1001) Sim.ok).
  - vm_compute. reflexivity.
  - vm_compute. reflexivity.
  - vm_compute. repeat (first [left; reflexivity | right]).
Defined.

(** X17: a SIGINT on the running process, then a click on "Open UI" and
    a pointer move between two goroutine turns. *)
Lemma signal_ends_process_witness :
  fst (run (Deliver SIGINT :: Cases.clicks_after_signal) Sim.running) =
    Exited 0.
Proof.
  apply signal_ends_process.
  - vm_compute. reflexivity.
  - vm_compute. lia.
Defined.

(** X19: the "Exit" entry followed through, then a SIGTERM that the
    goroutine takes. *)
Lemma goroutine_exit_removes_what_startup_made_witness :
  0 = 0 /\
  exists (u : list Event) (nidD : notifyIconData) (rd rw : Reply),
    added (snd (run Cases.exit_then_signal Sim.running))
      (snd (coordinator_iter true
              (snd (run Cases.exit_then_signal Sim.running)))) =
      u ++ [Sys (Shell_NotifyIconW NIM_DELETE nidD) rd;
            Sys (DestroyWindow (HWnd Cases.tray_request)) rw] /\
    HWnd nidD = HWnd Cases.tray_request /\ UID nidD = UID Cases.tray_request.
Proof.
  apply (goroutine_exit_removes_what_startup_made (init_state Sim.boot)
           Sim.running
           (snd (run Cases.exit_then_signal Sim.running))
           (snd (coordinator_iter true
                   (snd (run Cases.exit_then_signal Sim.running))))
           Cases.exit_then_signal true 0 Cases.tray_request Sim.ok).
  - reflexivity.
  - vm_compute. reflexivity.
  - vm_compute. repeat (first [left; reflexivity | right]).
  - vm_compute. reflexivity.
  - vm_compute. reflexivity.
Defined.
